(** * Eternal Flame API: a shallow embedding of the two back ends

    The repository holds two implementations of the same HTTP service:
    - [src/main.py] with [src/schemas.py] (pydantic v2, hCaptcha, Mongo [_id]
      as the flame id), embedded in [Module Root];
    - [src/backend/main.py] with [src/backend/schemas.py] and
      [src/backend/database.py] (pydantic v1, an application-level [id]
      field), embedded in [Module Backend].

    Python dictionaries are finite maps from strings to dynamically typed
    values, Mongo collections are lists of documents (insertion order is the
    order [find_one] and [update_one] scan in), the clock, the random tokens
    and the fresh ObjectIds are explicit inputs of every operation, and the
    libraries the handlers call (Stripe, hCaptcha, pydantic's scalar parsers)
    are the fields of one record of externals. *)

From Stdlib Require Import ZArith String Ascii List Bool Lia.
From stdpp Require Import base option list strings pretty gmap fin_maps.

Local Open Scope string_scope.

(** ** Python values *)

#[local] Set Warnings "-register-all".

Inductive value : Type :=
| VNone
| VBool (b : bool)
| VInt (n : Z)
| VStr (s : string)
| VTime (t : Z)                       (* a datetime: the instant t *)
| VIso (t : Z)                        (* datetime.isoformat() of the instant t *)
| VOid (h : string)                   (* bson.ObjectId, by its 24 hex digits *)
| VList (l : list value)
| VDict (kv : list (string * value)).

Abbreviation doc := (gmap string value).
Abbreviation store := (gmap string (list doc)).

(** Truth value of an object, as [if x:] and [not x] test it. *)
Definition truthy (v : value) : bool :=
  match v with
  | VNone => false
  | VBool b => b
  | VInt n => negb (n =? 0)%Z
  | VStr s => negb (String.eqb s "")
  | VList l => match l with [] => false | _ => true end
  | VDict kv => match kv with [] => false | _ => true end
  | VTime _ | VIso _ | VOid _ => true
  end.

(** [str(x)] for the objects that serve as document ids.  Mongo takes no
    array as [_id]; containers and datetimes are rendered by their type
    name only. *)
Definition py_str (v : value) : string :=
  match v with
  | VNone => "None"
  | VBool true => "True"
  | VBool false => "False"
  | VInt n => pretty n
  | VStr s => s
  | VOid h => h
  | VTime _ | VIso _ => "datetime"
  | VList _ => "list"
  | VDict _ => "dict"
  end.

(** ** The string methods the handlers use (ASCII text) *)

Module Str.

Definition lower_char (c : ascii) : ascii :=
  let n := nat_of_ascii c in
  if (65 <=? n)%nat && (n <=? 90)%nat then ascii_of_nat (n + 32) else c.

Definition upper_char (c : ascii) : ascii :=
  let n := nat_of_ascii c in
  if (97 <=? n)%nat && (n <=? 122)%nat then ascii_of_nat (n - 32) else c.

Definition is_alpha (c : ascii) : bool :=
  let n := nat_of_ascii c in
  ((65 <=? n)%nat && (n <=? 90)%nat) || ((97 <=? n)%nat && (n <=? 122)%nat).

(* str.isspace on ASCII: TAB..CR, FS..US and the blank *)
Definition is_space (c : ascii) : bool :=
  let n := nat_of_ascii c in
  ((9 <=? n)%nat && (n <=? 13)%nat) || ((28 <=? n)%nat && (n <=? 32)%nat).

Fixpoint lower (s : string) : string :=
  match s with
  | EmptyString => EmptyString
  | String c s' => String (lower_char c) (lower s')
  end.

Definition startswith (s p : string) : bool := String.prefix p s.

Definition endswith (s suf : string) : bool :=
  let n := String.length s in
  let m := String.length suf in
  (m <=? n)%nat && String.eqb (String.substring (n - m) m s) suf.

Fixpoint lstrip (s : string) : string :=
  match s with
  | EmptyString => EmptyString
  | String c s' => if is_space c then lstrip s' else s
  end.

(* drops the trailing white space: a character stays when it is no blank
   or something after it stays *)
Fixpoint rstrip (s : string) : string :=
  match s with
  | EmptyString => EmptyString
  | String c s' =>
      match rstrip s' with
      | EmptyString => if is_space c then EmptyString else String c EmptyString
      | r => String c r
      end
  end.

Definition strip (s : string) : string := rstrip (lstrip s).

(* s.replace(" ", "-") *)
Fixpoint replace_blank (s : string) : string :=
  match s with
  | EmptyString => EmptyString
  | String c s' =>
      String (if Ascii.eqb c " "%char then "-"%char else c) (replace_blank s')
  end.

(* str.title(): every run of letters starts in upper case and goes on in
   lower case *)
Fixpoint title_from (inword : bool) (s : string) : string :=
  match s with
  | EmptyString => EmptyString
  | String c s' =>
      String (if inword then lower_char c else upper_char c)
             (title_from (is_alpha c) s')
  end.

Definition title (s : string) : string := title_from false s.

End Str.

(** ** The pymongo collection methods the code calls *)

Module Mongo.

(** A filter document [{k1: v1, ...}] with scalar values. *)
Definition query := list (string * value).

Definition scalar_eqb (a b : value) : bool :=
  match a, b with
  | VNone, VNone => true
  | VBool x, VBool y => Bool.eqb x y
  | VInt x, VInt y => (x =? y)%Z
  | VStr x, VStr y => String.eqb x y
  | VOid x, VOid y => String.eqb x y
  | VTime x, VTime y => (x =? y)%Z
  | VIso x, VIso y => (x =? y)%Z
  | _, _ => false
  end.

Definition matches (q : query) (d : doc) : bool :=
  forallb (fun kv : string * value =>
             match d !! kv.1 with
             | Some w => scalar_eqb kv.2 w
             | None => false
             end) q.

(* Collection.find_one(filter) *)
Fixpoint find_one (q : query) (c : list doc) : option doc :=
  match c with
  | [] => None
  | d :: c' => if matches q d then Some d else find_one q c'
  end.

(* list(Collection.find(filter).limit(n)) *)
Definition find_limit (q : query) (n : nat) (c : list doc) : list doc :=
  take n (List.filter (matches q) c).

(* Collection.update_one(filter, {"$set": upd}): the first match takes the
   fields of upd, no match changes nothing *)
Fixpoint update_one (q : query) (upd : doc) (c : list doc) : list doc :=
  match c with
  | [] => []
  | d :: c' =>
      if matches q d then (upd ∪ d) :: c' else d :: update_one q upd c'
  end.

(* Collection.insert_one(document): a document without "_id" gets the fresh
   ObjectId, in place; the result carries the "_id" *)
Definition insert_one (oid : string) (d : doc) (c : list doc)
  : list doc * doc * value :=
  let d' := match d !! "_id" with
            | Some _ => d
            | None => <["_id" := VOid oid]> d
            end in
  ((c ++ [d'])%list, d', default (VOid oid) (d' !! "_id")).

End Mongo.

(** ** src/backend/database.py *)

Module Database.

Definition collection (db : store) (name : string) : list doc :=
  default [] (db !! name).

(** [create_document] writes into the dictionary it is given: besides the
    new store and the id it returns, the caller's [data] is the stamped
    document afterwards (second component). *)
Definition create_document (db : store) (now : Z) (oid : string)
    (collection_name : string) (data : doc) : store * doc * string :=
  let data := <["created_at" := default (VTime now) (data !! "created_at")]> data in
  let data := <["updated_at" := VTime now]> data in
  let '(c, data, inserted_id) :=
    Mongo.insert_one oid data (collection db collection_name) in
  (<[collection_name := c]> db, data, py_str inserted_id).

Definition get_document (db : store) (collection_name : string)
    (filt : Mongo.query) : option doc :=
  Mongo.find_one filt (collection db collection_name).

Definition get_documents (db : store) (collection_name : string)
    (filt : Mongo.query) (limit : nat) : list doc :=
  Mongo.find_limit filt limit (collection db collection_name).

Definition update_document (db : store) (now : Z) (collection_name : string)
    (filt : Mongo.query) (update : doc) : store :=
  let update := <["updated_at" := VTime now]> update in
  <[collection_name :=
      Mongo.update_one filt update (collection db collection_name)]> db.

End Database.

(** ** What a handler can end in *)

Inductive detail : Type :=
| Msg (s : string)
| Errors.                              (* pydantic's e.errors() listing *)

Inductive result (A : Type) : Type :=
| Ok (a : A)
| HTTPException (status_code : Z) (d : detail)
| Unhandled (exn : string).            (* an exception no handler catches: 500 *)

Arguments Ok {A} a.
Arguments HTTPException {A} status_code d.
Arguments Unhandled {A} exn.

Definition is_ok {A} (r : result A) : bool :=
  match r with Ok _ => true | _ => false end.

(** ** The payment provider and the other libraries *)

(* the arguments of stripe.checkout.Session.create that vary; the constant
   ones (card, payment mode, usd, quantity 1, promotion codes, tax) and the
   fixed prefix of the product name are left out *)
Record session_request : Type := {
  unit_amount : Z;
  product_tier : string;               (* tier.title() in the product name *)
  meta_flame_id : value;
  meta_tier : string;
  success_url : string;
  cancel_url : string;
}.

Record session : Type := { session_id : string; session_url : string }.

(* the part of a Stripe event the handlers read: event["type"] and
   event["data"]["object"].get("metadata"), whose values Stripe keeps as strings *)
Record event : Type := {
  ev_type : string;
  ev_metadata : option (gmap string string);
}.

Record externals : Type := {
  (* stripe.Webhook.construct_event(payload, sig_header, secret):
     the event, or the text of the exception it raises *)
  construct_event : string -> option string -> string -> string + event;
  (* stripe.checkout.Session.create(...): the session, or the exception text *)
  Session_create : session_request -> string + session;
  (* the answer of hcaptcha.com/siteverify for (secret, response):
     bool(data.get("success")), False when the call raises *)
  siteverify : string -> value -> bool;
  (* pydantic HttpUrl: str(url) of the validated URL *)
  parse_http_url : value -> option string;
  (* pydantic datetime, bool and int parsing of a JSON value *)
  parse_datetime : value -> option Z;
  parse_bool : value -> option bool;
  parse_int : value -> option Z;
}.

(** The allow-listed image extensions, in the order of src/schemas.py (the
    back end lists the same five). *)
Definition allowed : list string := [".jpg"; ".jpeg"; ".png"; ".gif"; ".webp"].

(* any(s.lower().endswith(ext) for ext in exts) *)
Definition has_image_ext (exts : list string) (s : string) : bool :=
  existsb (Str.endswith (Str.lower s)) exts.

(** ** How pydantic treats a field, by its annotation *)

(* Optional[T] = None: a missing key and null give None *)
Definition optional {A} (p : value -> option A) (o : option value)
  : option (option A) :=
  match o with
  | None | Some VNone => Some None
  | Some v => Some <$> p v
  end.

(* T = ...: the key is required *)
Definition required {A} (p : value -> option A) (o : option value) : option A :=
  o ≫= p.

(* T = default: a missing key gives the default *)
Definition with_default {A} (p : value -> option A) (dflt : A)
    (o : option value) : option A :=
  match o with
  | None => Some dflt
  | Some v => p v
  end.

(** * src/backend *)

Module Backend.

(** ** src/backend/schemas.py *)

Record Photo : Type := {
  url : string;
  width : option Z;
  height : option Z;
}.

Record FlameCreate : Type := {
  recipient_name : string;
  sender_name : option string;
  message : string;
  photos : option (list Photo);
  flame_color : string;
  tier : string;
  schedule_date : option Z;
  allow_public_gallery : bool;
}.

Record FlameReply : Type := {
  reply_flame_id : string;
  reply_message : string;
  reply_sender_name : option string;
}.

Record CheckoutRequest : Type := {
  req_flame_id : string;
  req_tier : string;
}.

Section Parsing.
Context (ext : externals).

(* a pydantic v1 [str] field takes a string, and a number by its str() *)
Definition str_v1 (v : value) : option string :=
  match v with
  | VStr s => Some s
  | VInt _ | VBool _ => Some (py_str v)
  | _ => None
  end.

Definition max_len (n : nat) (s : string) : option string :=
  if (String.length s <=? n)%nat then Some s else None.


Definition kv_get (kv : list (string * value)) (k : string) : option value :=
  snd <$> List.find (fun p => String.eqb p.1 k) kv.




Definition FlameReply_parse (body : doc) : option FlameReply :=
  fid ← required str_v1 (body !! "flame_id");
  msg ← required (fun v => str_v1 v ≫= max_len 2000) (body !! "message");
  sn ← optional (fun v => str_v1 v ≫= max_len 100) (body !! "sender_name");
  Some {| reply_flame_id := fid; reply_message := msg; reply_sender_name := sn |}.

End Parsing.

(** ** src/backend/main.py *)

Record world : Type := {
  db : store;                          (* the Mongo database *)
  sessions : list session_request;     (* checkout sessions at the provider *)
}.

Definition set_db (w : world) (d : store) : world :=
  {| db := d; sessions := sessions w |}.

Definition add_session (w : world) (rq : session_request) : world :=
  {| db := db w; sessions := (sessions w ++ [rq])%list |}.

Section Handlers.
Context (ext : externals).
(* os.getenv(...) at import time *)
Context (STRIPE_WEBHOOK_SECRET BASE_URL ADMIN_KEY : string).

Definition generate_slug (recipient : string) (sender : option string)
    (rand : string) : string :=
  let base :=
    Str.replace_blank
      (Str.lower (Str.strip (if String.eqb recipient "" then "love" else recipient))) in
  let base :=
    match sender with
    | Some s =>
        if String.eqb s "" then base
        else base ++ "-from-" ++ Str.replace_blank (Str.lower (Str.strip s))
    | None => base
    end in
  base ++ "-" ++ rand.

Definition image_exts : list string := [".jpg"; ".jpeg"; ".png"; ".webp"; ".gif"].

(* the test of the loop body of validate_photos *)
Definition photo_is_safe (p : list (string * value)) : bool :=
  let url := py_str (default (VStr "") (kv_get p "url")) in
  Str.startswith url "https://" && has_image_ext image_exts url.

(* the loop appends the safe photos in order; the slice keeps three *)
Definition validate_photos (photos : list (list (string * value)))
  : list (list (string * value)) :=
  take 3 (List.filter photo_is_safe photos).

(* Photo.dict() *)
Definition Photo_dict (p : Photo) : list (string * value) :=
  [("url", VStr (url p));
   ("width", from_option VInt VNone (width p));
   ("height", from_option VInt VNone (height p))].

(** [Flame] called with the unpacked dictionary and [created_at=...]: Python
    refuses a call that gets the keyword [created_at] twice, before pydantic
    sees the arguments.
    Otherwise the response is the model built from the arguments (its field
    validation is not modelled). *)
Definition Flame_call (kwargs : doc) (created_at : Z) : result doc :=
  match kwargs !! "created_at" with
  | Some _ =>
      Unhandled "TypeError: got multiple values for keyword argument 'created_at'"
  | None => Ok (<["created_at" := VTime created_at]> kwargs)
  end.

(** POST /flames.  [now] is the clock, [rand] and [flame_id] the two
    [secrets.token_urlsafe] draws, [oid] the ObjectId of the insert. *)
Definition create_flame (payload : FlameCreate) (now : Z)
    (rand flame_id oid : string) (w : world) : result doc * world :=
  let slug := generate_slug (recipient_name payload) (sender_name payload) rand in
  let watermark := negb (String.eqb (tier payload) "premium") in
  let sender :=
    match sender_name payload with
    | Some s => if String.eqb s "" then "Anonymous" else s
    | None => "Anonymous"
    end in
  let doc : doc :=
    list_to_map
      [("id", VStr flame_id);
       ("recipient_name", VStr (Str.strip (recipient_name payload)));
       ("sender_name", VStr (Str.strip sender));
       ("message", VStr (message payload));
       ("photos",
        VList (VDict <$> validate_photos
                 (Photo_dict <$> default [] (photos payload))));
       ("flame_color", VStr (flame_color payload));
       ("tier", VStr (tier payload));
       ("scheduled_for", from_option VIso VNone (schedule_date payload));
       ("payment_status", VStr "pending");
       ("slug", VStr slug);
       ("burn_start", VIso now);
       ("watermark", VBool watermark);
       ("allow_public_gallery", VBool (allow_public_gallery payload))] in
  (* create_document stamps the very dictionary it is handed *)
  let '(db', doc, _) := Database.create_document (db w) now oid "flame" doc in
  (Flame_call doc now, set_db w db').


Definition price_map : gmap string Z :=
  list_to_map [("basic", 499%Z); ("premium", 999%Z)].

(** POST /checkout *)
Definition create_checkout_session (req : CheckoutRequest) (w : world)
  : result doc * world :=
  match Database.get_document (db w) "flame" [("id", VStr (req_flame_id req))] with
  | None => (HTTPException 404 (Msg "Flame not found"), w)
  | Some flame =>
      match price_map !! req_tier req with
      | None => (HTTPException 400 (Msg "Invalid tier"), w)
      | Some amount =>
          if (amount =? 0)%Z then (HTTPException 400 (Msg "Invalid tier"), w)
          else
            match flame !! "slug", flame !! "id" with
            | Some slug, Some fid =>
                let rq :=
                  {| unit_amount := amount;
                     product_tier := Str.title (req_tier req);
                     meta_flame_id := fid;
                     meta_tier := req_tier req;
                     success_url := BASE_URL ++ "/success?flame=" ++ py_str slug;
                     cancel_url := BASE_URL ++ "/cancel?flame=" ++ py_str slug |} in
                match Session_create ext rq with
                | inl e => (Unhandled e, w)
                | inr s =>
                    (Ok (list_to_map [("id", VStr (session_id s));
                                      ("url", VStr (session_url s))]),
                     add_session w rq)
                end
            | _, _ => (Unhandled "KeyError", w)
            end
      end
  end.

Definition received : doc := {["received" := VBool true]}.

(** POST /webhook/stripe: the raw body and the stripe-signature header. *)
Definition stripe_webhook (payload : string) (sig_header : option string)
    (now : Z) (w : world) : result doc * world :=
  match construct_event ext payload sig_header STRIPE_WEBHOOK_SECRET with
  | inl _ => (HTTPException 400 (Msg "Invalid signature"), w)
  | inr event =>
      if String.eqb (ev_type event) "checkout.session.completed" then
        let metadata := default ∅ (ev_metadata event) in
        let tier := default "basic" (metadata !! "tier") in
        match metadata !! "flame_id" with
        | Some flame_id =>
            if String.eqb flame_id "" then (Ok received, w)
            else
              (Ok received,
               set_db w
                 (Database.update_document (db w) now "flame"
                    [("id", VStr flame_id)]
                    (list_to_map [("payment_status", VStr "paid");
                                  ("tier", VStr tier)])))
        | None => (Ok received, w)
        end
      else (Ok received, w)
  end.

(** POST /flames/{flame_id}/reply *)
Definition reply_flame (flame_id : string) (payload : FlameReply)
    (now : Z) (oid : string) (w : world) : result doc * world :=
  match Database.get_document (db w) "flame" [("id", VStr flame_id)] with
  | None => (HTTPException 404 (Msg "Flame not found"), w)
  | Some flame =>
      if negb (match flame !! "tier" with
               | Some t => Mongo.scalar_eqb t (VStr "premium")
               | None => false
               end)
      then (HTTPException 403 (Msg "Replies available for Premium flames"), w)
      else
        let reply_doc : doc :=
          list_to_map
            [("flame_id", VStr flame_id);
             ("message", VStr (reply_message payload));
             ("sender_name", from_option VStr VNone (reply_sender_name payload));
             ("created_at", VIso now)] in
        let '(db', _, _) := Database.create_document (db w) now oid "reply" reply_doc in
        (Ok {["status" := VStr "ok"]}, set_db w db')
  end.

(** GET /flames/{slug} *)
Definition get_flame (slug : string) (now : Z) (w : world) : result doc :=
  match Database.get_document (db w) "flame" [("slug", VStr slug)] with
  | None => HTTPException 404 (Msg "Not found")
  | Some flame => Flame_call flame now
  end.

(** GET /gallery: the loop pops "_id" off every document, if it is there. *)
Definition public_gallery (w : world) : list doc :=
  delete "_id" <$>
    Database.get_documents (db w) "flame"
      [("allow_public_gallery", VBool true); ("payment_status", VStr "paid")] 100.

(** GET /admin/flames with the x-admin-key header, if any. *)
Definition admin_flames (x_admin_key : option string) (w : world)
  : result (list doc) :=
  if negb (match x_admin_key with
           | Some k => String.eqb k ADMIN_KEY
           | None => false
           end)
  then HTTPException 401 (Msg "Unauthorized")
  else
    Ok (delete "_id" <$>
          Database.get_documents (db w) "flame" [("payment_status", VStr "paid")] 500).

End Handlers.

End Backend.

(** * src/main.py and src/schemas.py *)

Module Root.

(** ** src/schemas.py (pydantic v2) *)

Record FlameCreate : Type := {
  recipient_name : string;
  sender_name : string;
  message : string;
  photos : option (list string);       (* each HttpUrl by its str(url) *)
  flame_color : option string;
  tier : string;
  schedule_date : option Z;
  allow_public_gallery : bool;
}.

Section Schemas.
Context (ext : externals).

(* str with Field(min_length, max_length): no coercion in v2 *)
Definition str_field (lo hi : nat) (v : value) : option string :=
  match v with
  | VStr s =>
      if (lo <=? String.length s)%nat && (String.length s <=? hi)%nat
      then Some s else None
  | _ => None
  end.

Definition str_any (v : value) : option string :=
  match v with VStr s => Some s | _ => None end.

(* Literal['basic', 'premium'] *)
Definition Tier (v : value) : option string :=
  match v with
  | VStr s =>
      if String.eqb s "basic" || String.eqb s "premium" then Some s else None
  | _ => None
  end.

Definition list_of_urls (v : value) : option (list string) :=
  match v with
  | VList l => mapM (parse_http_url ext) l
  | _ => None
  end.

(** The field validator of [photos]; [None] is the ValueError. *)
Definition validate_photos (v : option (list string))
  : option (option (list string)) :=
  match v with
  | None => Some None
  | Some l =>
      if (3 <? length l)%nat then None
      else if forallb (has_image_ext allowed) l then Some (Some l)
      else None
  end.

(** [FlameCreate] called with the keywords of [payload]; [None] is the
    ValidationError.  Unknown keys are ignored. *)
Definition FlameCreate_validate (payload : doc) : option FlameCreate :=
  rn ← required (str_field 1 80) (payload !! "recipient_name");
  sn ← required (str_field 1 80) (payload !! "sender_name");
  msg ← required (str_field 10 4000) (payload !! "message");
  ph ← optional list_of_urls (payload !! "photos") ≫= validate_photos;
  col ← match payload !! "flame_color" with
        | None => Some (Some "#FF4D4D")
        | Some VNone => Some None
        | Some v => Some <$> str_any v
        end;
  tr ← with_default Tier "basic" (payload !! "tier");
  sd ← optional (parse_datetime ext) (payload !! "schedule_date");
  apg ← with_default (parse_bool ext) false
          (payload !! "allow_public_gallery");
  Some {| recipient_name := rn; sender_name := sn; message := msg;
          photos := ph; flame_color := col; tier := tr;
          schedule_date := sd; allow_public_gallery := apg |}.

Definition model_dump (obj : FlameCreate) : doc :=
  list_to_map
    [("recipient_name", VStr (recipient_name obj));
     ("sender_name", VStr (sender_name obj));
     ("message", VStr (message obj));
     ("photos", from_option (fun l => VList (VStr <$> l)) VNone (photos obj));
     ("flame_color", from_option VStr VNone (flame_color obj));
     ("tier", VStr (tier obj));
     ("schedule_date", from_option VTime VNone (schedule_date obj));
     ("allow_public_gallery", VBool (allow_public_gallery obj))].

(** [FlameReply(flame_id=flame_id, **payload)]: a payload that has the key
    [flame_id] itself makes the call a TypeError; else [message] is a string
    of 3 to 2000 characters. *)
Inductive reply_check : Type := ReplyOk | ReplyInvalid | ReplyTypeError.

Definition FlameReply_call (flame_id : string) (payload : doc) : reply_check :=
  match payload !! "flame_id" with
  | Some _ => ReplyTypeError
  | None =>
      match required (str_field 3 2000) (payload !! "message") with
      | Some _ => ReplyOk
      | None => ReplyInvalid
      end
  end.

End Schemas.

(** ** The [database] module of src/main.py *)

(** Modelled from the spec: src/main.py imports [db], [create_document] and
    [get_documents] from a module [database] that is not among the sources
    (src/backend/database.py belongs to the other back end).  Section 4.1:
    create stamps the last-updated timestamp, and the creation timestamp if
    absent, from the adapter's clock, and returns the id. *)
Definition create_document (db : store) (now : Z) (oid : string)
    (collection_name : string) (data : doc) : store * string :=
  let data :=
    match data !! "created_at" with
    | Some _ => data
    | None => <["created_at" := VTime now]> data
    end in
  let data := <["updated_at" := VTime now]> data in
  let '(c, _, inserted_id) :=
    Mongo.insert_one oid data (Database.collection db collection_name) in
  (<[collection_name := c]> db, py_str inserted_id).

(** Modelled from the spec: [get_documents] of the same missing module.
    Section 4.1: list(collection, filter, limit) gives a sequence of
    documents. *)
Definition get_documents (db : store) (collection_name : string)
    (filt : Mongo.query) (limit : nat) : list doc :=
  Mongo.find_limit filt limit (Database.collection db collection_name).

(** ** src/main.py *)

Record world : Type := {
  db : option store;                   (* None: no database configured *)
  sessions : list session_request;
}.

Definition set_db (w : world) (d : store) : world :=
  {| db := Some d; sessions := sessions w |}.

Definition add_session (w : world) (rq : session_request) : world :=
  {| db := db w; sessions := (sessions w ++ [rq])%list |}.

(* the environment, read at import time; an unset variable is "" *)
Record config : Type := {
  STRIPE_SECRET_KEY : string;
  STRIPE_WEBHOOK_SECRET : string;
  ADMIN_KEY : string;
  FRONTEND_URL : string;
  HCAPTCHA_SECRET : string;
}.

Definition is_hex (c : ascii) : bool :=
  let n := nat_of_ascii c in
  ((48 <=? n)%nat && (n <=? 57)%nat)
  || ((65 <=? n)%nat && (n <=? 70)%nat)
  || ((97 <=? n)%nat && (n <=? 102)%nat).

(* bson.ObjectId(s) for a string: 24 hex digits, else InvalidId *)
Definition ObjectId (s : string) : option value :=
  if (String.length s =? 24)%nat && forallb is_hex (list_ascii_of_string s)
  then Some (VOid (Str.lower s)) else None.

(* 'T' object has no attribute 'title' *)
Definition no_title (v : value) : string :=
  let ty := match v with
            | VNone => "NoneType" | VBool _ => "bool" | VInt _ => "int"
            | VStr _ => "str" | VList _ => "list" | VDict _ => "dict"
            | VTime _ | VIso _ => "datetime" | VOid _ => "ObjectId"
            end in
  "'" ++ ty ++ "' object has no attribute 'title'".

Section Handlers.
Context (ext : externals) (cfg : config).

Definition generate_slug (recipient sender token : string) : string :=
  let base :=
    Str.replace_blank
      (Str.lower (Str.strip recipient) ++ "-" ++ Str.lower (Str.strip sender)) in
  base ++ "-" ++ token.

(* "If no secret configured, allow in development." *)
Definition verify_hcaptcha (token : value) : bool :=
  if String.eqb (HCAPTCHA_SECRET cfg) "" then true
  else if negb (truthy token) then false
  else siteverify ext (HCAPTCHA_SECRET cfg) token.

(** POST /flames.  [token] is the [secrets.token_urlsafe] draw of the slug,
    [oid] the ObjectId of the insert. *)
Definition create_flame (payload : doc) (now : Z) (token oid : string)
    (w : world) : result doc * world :=
  let captcha_token := default VNone (payload !! "captcha_token") in
  let payload := delete "captcha_token" payload in
  if negb (verify_hcaptcha captcha_token)
  then (HTTPException 400 (Msg "CAPTCHA failed"), w)
  else
    match FlameCreate_validate ext payload with
    | None => (HTTPException 422 Errors, w)
    | Some obj =>
        let slug := generate_slug (recipient_name obj) (sender_name obj) token in
        let doc : doc :=
          (list_to_map [("slug", VStr slug);
                        ("payment_status", VStr "unpaid");
                        ("created_at", VTime now);
                        ("updated_at", VTime now)] : doc)
          ∪ model_dump obj in
        match db w with
        | None => (Unhandled "database not available", w)
        | Some d =>
            let '(d', inserted_id) := create_document d now oid "flame" doc in
            (Ok (list_to_map [("id", VStr inserted_id);
                              ("slug", VStr slug);
                              ("payment_status", VStr "unpaid")]),
             set_db w d')
        end
    end.

(** POST /checkout *)
Definition checkout (payload : doc) (w : world) : result doc * world :=
  if String.eqb (STRIPE_SECRET_KEY cfg) ""
  then (HTTPException 400 (Msg "Stripe not configured"), w)
  else
    let flame_id := default VNone (payload !! "flame_id") in
    let tier := default (VStr "basic") (payload !! "tier") in
    if negb (truthy flame_id)
    then (HTTPException 422 (Msg "flame_id required"), w)
    else
      let price :=
        if Mongo.scalar_eqb tier (VStr "basic") then 499%Z else 999%Z in
      match tier with
      | VStr t =>
          let rq :=
            {| unit_amount := price;
               product_tier := Str.title t;
               meta_flame_id := flame_id;
               meta_tier := t;
               success_url :=
                 FRONTEND_URL cfg ++ "/success?session_id={CHECKOUT_SESSION_ID}";
               cancel_url := FRONTEND_URL cfg ++ "/cancel" |} in
          match Session_create ext rq with
          | inl e => (HTTPException 400 (Msg e), w)
          | inr s =>
              (Ok (list_to_map [("id", VStr (session_id s));
                                ("url", VStr (session_url s))]),
               add_session w rq)
          end
      | _ =>
          (* tier.title() raises inside the try block *)
          (HTTPException 400 (Msg (no_title tier)), w)
      end.

Definition received : doc := {["received" := VBool true]}.

(** POST /webhook/stripe.  The truth value of a configured database handle
    is taken to be true. *)
Definition stripe_webhook (payload : string) (sig_header : option string)
    (now : Z) (w : world) : result doc * world :=
  if String.eqb (STRIPE_WEBHOOK_SECRET cfg) ""
  then (HTTPException 400 (Msg "Webhook not configured"), w)
  else
    match construct_event ext payload sig_header (STRIPE_WEBHOOK_SECRET cfg) with
    | inl e => (HTTPException 400 (Msg ("Invalid signature: " ++ e)), w)
    | inr event =>
        if String.eqb (ev_type event) "checkout.session.completed" then
          let metadata := default ∅ (ev_metadata event) in
          match metadata !! "flame_id", db w with
          | Some flame_id, Some d =>
              if String.eqb flame_id "" then (Ok received, w)
              else
                match ObjectId flame_id with
                | Some oid =>
                    (Ok received,
                     set_db w
                       (<["flame" :=
                            Mongo.update_one [("_id", oid)]
                              (list_to_map [("payment_status", VStr "paid");
                                            ("updated_at", VTime now)])
                              (Database.collection d "flame")]> d))
                | None => (Ok received, w)     (* except Exception: pass *)
                end
          | _, _ => (Ok received, w)
          end
        else (Ok received, w)
    end.

(** POST /flames/{flame_id}/reply *)
Definition reply_flame (flame_id : string) (payload : doc) (now : Z)
    (oid : string) (w : world) : result doc * world :=
  match FlameReply_call flame_id payload with
  | ReplyTypeError =>
      (Unhandled "TypeError: got multiple values for keyword argument 'flame_id'", w)
  | ReplyInvalid => (HTTPException 422 Errors, w)
  | ReplyOk =>
      match db w with
      | None => (HTTPException 500 (Msg "Database not configured"), w)
      | Some d =>
          let payload := <["flame_id" := VStr flame_id]> payload in
          let payload := <["created_at" := VTime now]> payload in
          let '(d', _) := create_document d now oid "flamereply" payload in
          (Ok {["ok" := VBool true]}, set_db w d')
      end
  end.

(* d["id"] = str(d.pop("_id")) *)
Definition public_id (d : doc) : option doc :=
  match d !! "_id" with
  | Some i => Some (<["id" := VStr (py_str i)]> (delete "_id" d))
  | None => None
  end.

(** GET /admin/flames with the x-admin-key header, if any. *)
Definition admin_flames (x_admin_key : option string) (w : world)
  : result (list doc) :=
  if String.eqb (ADMIN_KEY cfg) ""
     || negb (match x_admin_key with
              | Some k => String.eqb k (ADMIN_KEY cfg)
              | None => false
              end)
  then HTTPException 401 (Msg "Unauthorized")
  else
    match db w with
    | None => Unhandled "database not available"
    | Some d =>
        match mapM public_id
                (get_documents d "flame" [("payment_status", VStr "paid")] 200) with
        | Some items => Ok items
        | None => Unhandled "KeyError: '_id'"
        end
    end.

(** GET /flames/{slug}: pymongo's find_one on the handle itself. *)
Definition get_flame (slug : string) (w : world) : result doc :=
  match db w with
  | None => HTTPException 500 (Msg "Database not configured")
  | Some d =>
      match Mongo.find_one [("slug", VStr slug)] (Database.collection d "flame") with
      | None => HTTPException 404 (Msg "Flame not found")
      | Some doc =>
          match public_id doc with
          | Some doc => Ok doc
          | None => Unhandled "KeyError: '_id'"
          end
      end
  end.

End Handlers.

End Root.

(** * A concrete environment for the examples *)

Module Sample.

(* a signature verifies when the header repeats the secret; a verified body
   is the id of the flame whose checkout completed *)
Definition ext : externals := {|
  construct_event payload sig_header secret :=
    match sig_header with
    | Some s =>
        if String.eqb s secret
        then inr {| ev_type := "checkout.session.completed";
                    ev_metadata := Some {["flame_id" := payload]} |}
        else inl "No signatures found matching the expected signature"
    | None => inl "Unable to extract timestamp and signatures from header"
    end;
  Session_create rq :=
    inr {| session_id := "cs_test_1";
           session_url := "https://checkout.stripe.com/c/pay/cs_test_1" |};
  siteverify secret token := false;
  parse_http_url v :=
    match v with
    | VStr s =>
        if Str.startswith s "https://" || Str.startswith s "http://"
        then Some s else None
    | _ => None
    end;
  parse_datetime v := match v with VInt n => Some n | _ => None end;
  parse_bool v := match v with VBool b => Some b | _ => None end;
  parse_int v := match v with VInt n => Some n | _ => None end;
|}.

Definition cfg : Root.config := {|
  Root.STRIPE_SECRET_KEY := "sk_test_123";
  Root.STRIPE_WEBHOOK_SECRET := "whsec_test";
  Root.ADMIN_KEY := "";
  Root.FRONTEND_URL := "*";
  Root.HCAPTCHA_SECRET := "";
|}.


(* the creation input of the spec's example, with a payment status added *)
Definition body : doc :=
  list_to_map
    [("recipient_name", VStr "Alex");
     ("sender_name", VStr "Sam");
     ("message", VStr "We miss you dearly and always will");
     ("tier", VStr "basic");
     ("payment_status", VStr "paid")].


Definition backend_obj : Backend.FlameCreate := {|
  Backend.recipient_name := "Alex";
  Backend.sender_name := Some "Sam";
  Backend.message := "We miss you dearly and always will";
  Backend.photos := None;
  Backend.flame_color := "red";
  Backend.tier := "basic";
  Backend.schedule_date := None;
  Backend.allow_public_gallery := false;
|}.




Definition basic_flame : doc :=
  list_to_map
    [("_id", VOid "65f0a1b2c3d4e5f601234567");
     ("id", VStr "65f0a1b2c3d4e5f601234567");
     ("slug", VStr "alex-sam-Zm9vYmFyYmF6");
     ("tier", VStr "basic");
     ("payment_status", VStr "unpaid")].

Definition premium_flame : doc := <["tier" := VStr "premium"]> basic_flame.

(* the event [ext] makes of a verified body naming basic_flame *)
Definition completed : event := {|
  ev_type := "checkout.session.completed";
  ev_metadata := Some {["flame_id" := "65f0a1b2c3d4e5f601234567"]};
|}.

Definition root_world (flames : list doc) : Root.world :=
  {| Root.db := Some {["flame" := flames]}; Root.sessions := [] |}.

Definition backend_world (flames : list doc) : Backend.world :=
  {| Backend.db := {["flame" := flames]}; Backend.sessions := [] |}.

End Sample.

(** * What the properties observe *)

(** The flame a webhook for [flame_id] is about, as each back end finds it. *)
Definition backend_flame (w : Backend.world) (flame_id : string) : option doc :=
  Database.get_document (Backend.db w) "flame" [("id", VStr flame_id)].

Definition root_flame (w : Root.world) (flame_id : string) : option doc :=
  d ← Root.db w;
  oid ← Root.ObjectId flame_id;
  Mongo.find_one [("_id", oid)] (Database.collection d "flame").


(* a character a slug keeps out of the part built from the names: the blank
   and the ASCII capitals *)
Definition is_upper (c : ascii) : bool :=
  let n := nat_of_ascii c in (65 <=? n)%nat && (n <=? 90)%nat.

Fixpoint no_upper (s : string) : bool :=
  match s with
  | EmptyString => true
  | String c s' => negb (is_upper c) && no_upper s'
  end.

Fixpoint slug_text (s : string) : bool :=
  match s with
  | EmptyString => true
  | String c s' =>
      negb (Ascii.eqb c " "%char) && negb (is_upper c) && slug_text s'
  end.

(** * Properties *)

(** ** The string helpers on concrete inputs *)

Example slug_of_the_spec_example :
  Root.generate_slug "Alex" "Sam" "Zm9vYmFyYmF6" = "alex-sam-Zm9vYmFyYmF6".
Proof. reflexivity. Qed.

Example slug_of_the_back_end :
  Backend.generate_slug " Mary Ann " (Some "Bob") "Zm9vYmFyYmF6"
  = "mary-ann-from-bob-Zm9vYmFyYmF6"
  ∧ Backend.generate_slug "" None "Zm9vYmFyYmF6" = "love-Zm9vYmFyYmF6".
Proof. split; reflexivity. Qed.

Example image_extension_is_case_insensitive :
  has_image_ext allowed "https://cdn.example.com/A.PNG" = true
  ∧ has_image_ext allowed "https://cdn.example.com/a.png?size=2" = false
  ∧ has_image_ext allowed "https://cdn.example.com/download?file=a.png" = true.
Proof. repeat split; reflexivity. Qed.

Example title_of_a_tier :
  Str.title "premium" = "Premium" ∧ Str.title "gOLD plan" = "Gold Plan".
Proof. split; reflexivity. Qed.

Example object_id_of_a_string :
  Root.ObjectId "65F0A1B2C3D4E5F601234567" = Some (VOid "65f0a1b2c3d4e5f601234567")
  ∧ Root.ObjectId "not-an-id" = None.
Proof. split; reflexivity. Qed.

(** ** The collection methods *)

Lemma update_one_shape (q : Mongo.query) (upd : doc) (c : list doc) :
  (Mongo.find_one q c = None ∧ Mongo.update_one q upd c = c)
  ∨ (∃ pre d post,
        c = (pre ++ d :: post)%list
        ∧ Mongo.find_one q pre = None
        ∧ Mongo.matches q d = true
        ∧ Mongo.find_one q c = Some d
        ∧ Mongo.update_one q upd c = (pre ++ (upd ∪ d) :: post)%list).
Proof.
  induction c as [|a c IH]; [by left|].
  simpl. destruct (Mongo.matches q a) eqn:Ha.
  - right. by exists [], a, c.
  - destruct IH as [[Hn Hu]|(pre & d & post & -> & Hpre & Hd & Hf & Hu)].
    + left. by rewrite Hu.
    + right. exists (a :: pre), d, post. simpl. rewrite Ha, Hu. done.
Qed.

Lemma find_one_app_hit (q : Mongo.query) (pre post : list doc) (d : doc) :
  Mongo.find_one q pre = None → Mongo.matches q d = true →
  Mongo.find_one q (pre ++ d :: post) = Some d.
Proof.
  induction pre as [|a pre IH]; simpl; intros Hpre Hd.
  - by rewrite Hd.
  - destruct (Mongo.matches q a); [done|]. by apply IH.
Qed.


Lemma collection_insert (db : store) (name : string) (c : list doc) :
  Database.collection (<[name := c]> db) name = c.
Proof. unfold Database.collection. by rewrite lookup_insert_eq. Qed.

Lemma collection_insert_ne (db : store) (name other : string) (c : list doc) :
  name ≠ other →
  Database.collection (<[name := c]> db) other = Database.collection db other.
Proof. intros. unfold Database.collection. by rewrite lookup_insert_ne. Qed.

(** ** The store adapter *)

(** What [create_document] stores: the caller's fields, the two timestamps
    and an [_id]. *)
Lemma create_document_stored (db : store) (now : Z) (oid name : string)
    (data : doc) :
  ∃ d : doc,
    Database.create_document db now oid name data
    = (<[name := (Database.collection db name ++ [d])%list]> db, d,
       py_str (default (VOid oid) (d !! "_id")))
    ∧ d !! "updated_at" = Some (VTime now)
    ∧ d !! "created_at" = Some (default (VTime now) (data !! "created_at"))
    ∧ ∀ k, k ≠ "created_at" → k ≠ "updated_at" → k ≠ "_id" →
           d !! k = data !! k.
Proof.
  unfold Database.create_document, Mongo.insert_one.
  set (d0 := <["updated_at" := VTime now]>
               (<["created_at" := default (VTime now) (data !! "created_at")]> data)).
  assert (H0u : d0 !! "updated_at" = Some (VTime now))
    by (subst d0; by rewrite lookup_insert_eq).
  assert (H0c : d0 !! "created_at"
                = Some (default (VTime now) (data !! "created_at")))
    by (subst d0; rewrite lookup_insert_ne by done; by rewrite lookup_insert_eq).
  assert (H0k : ∀ k, k ≠ "created_at" → k ≠ "updated_at" → d0 !! k = data !! k)
    by (intros k ? ?; subst d0; by rewrite !lookup_insert_ne).
  destruct (d0 !! "_id") eqn:Hid.
  - exists d0. repeat split; auto.
  - exists (<["_id" := VOid oid]> d0). repeat split.
    + by rewrite lookup_insert_ne.
    + by rewrite lookup_insert_ne.
    + intros k ? ? ?. rewrite lookup_insert_ne by done. auto.
Qed.

(** C9, as amended: on create and on update the adapter writes its own
    clock into [updated_at], whatever the caller put there; on create it
    writes the clock into [created_at] only when the caller's document has
    no such key, and keeps the caller's value otherwise.  An update changes
    the first document that matches the filter and no other. *)
Theorem adapter_timestamps (db : store) (now : Z) (oid name : string)
    (data : doc) (filt : Mongo.query) (patch : doc) :
  (∃ d : doc,
      Database.collection (Database.create_document db now oid name data).1.1 name
      = (Database.collection db name ++ [d])%list
      ∧ (Database.create_document db now oid name data).1.2 = d
      ∧ d !! "updated_at" = Some (VTime now)
      ∧ d !! "created_at" = match data !! "created_at" with
                            | Some supplied => Some supplied
                            | None => Some (VTime now)
                            end)
  ∧ (let c := Database.collection db name in
     let c' := Database.collection
                 (Database.update_document db now name filt patch) name in
     (Mongo.find_one filt c = None ∧ c' = c)
     ∨ (∃ pre d post d',
           c = (pre ++ d :: post)%list
           ∧ Mongo.find_one filt c = Some d
           ∧ c' = (pre ++ d' :: post)%list
           ∧ d' !! "updated_at" = Some (VTime now)
           ∧ ∀ k, k ≠ "updated_at" →
                  d' !! k = match patch !! k with
                            | Some v => Some v
                            | None => d !! k
                            end)).
Proof.
  split.
  - destruct (create_document_stored db now oid name data)
      as (d & -> & Hu & Hc & _).
    exists d. simpl. rewrite collection_insert. repeat split; auto.
    rewrite Hc. by destruct (data !! "created_at").
  - simpl. unfold Database.update_document. rewrite collection_insert.
    destruct (update_one_shape filt (<["updated_at" := VTime now]> patch)
                (Database.collection db name))
      as [[Hn Hu]|(pre & d & post & Hc & _ & _ & Hf & Hu)].
    + left. by rewrite Hu.
    + right. exists pre, d, post, (<["updated_at" := VTime now]> patch ∪ d).
      repeat split; auto.
      * rewrite lookup_union, lookup_insert_eq. by destruct (d !! "updated_at").
      * intros k Hk. rewrite lookup_union, lookup_insert_ne by done.
        by destruct (patch !! k), (d !! k).
Qed.

(** C9, counterexample: a caller that supplies [created_at = 5] when the
    adapter's clock reads 9 gets its own value stored, not the clock's. *)
Lemma adapter_created_at_counterexample :
  ∃ d : doc,
    Database.create_document ∅ 9 "65f0a1b2c3d4e5f601234567" "flame"
      {["created_at" := VTime 5]}
    = ({["flame" := [d]]}, d, "65f0a1b2c3d4e5f601234567")
    ∧ d !! "created_at" = Some (VTime 5)
    ∧ d !! "created_at" ≠ Some (VTime 9).
Proof.
  eexists. split; [vm_compute; reflexivity|].
  split; [by vm_compute|]. vm_compute. discriminate.
Qed.

(** ** The payment webhook *)

(** C2: a request whose signature [construct_event] refuses against the
    configured webhook secret ends in HTTP 400 "Invalid signature" in both
    back ends, and leaves the database and the provider untouched, whatever
    the body, the header and the state are. *)
Theorem webhook_invalid_signature (ext : externals) (cfg : Root.config)
    (secret payload : string) (sig_header : option string) (now : Z)
    (e : string) (wb : Backend.world) (wr : Root.world) :
  Root.STRIPE_WEBHOOK_SECRET cfg = secret →
  secret ≠ "" →
  construct_event ext payload sig_header secret = inl e →
  Backend.stripe_webhook ext secret payload sig_header now wb
  = (HTTPException 400 (Msg "Invalid signature"), wb)
  ∧ Root.stripe_webhook ext cfg payload sig_header now wr
    = (HTTPException 400 (Msg ("Invalid signature: " ++ e)), wr).
Proof.
  intros Hcfg Hne He. split.
  - unfold Backend.stripe_webhook. by rewrite He.
  - unfold Root.stripe_webhook. rewrite Hcfg.
    destruct (String.eqb_spec secret ""); [done|]. by rewrite He.
Qed.

Lemma webhook_invalid_signature_witness :
  Backend.stripe_webhook Sample.ext "whsec_test" "65f0a1b2c3d4e5f601234567"
    (Some "forged") 7 (Sample.backend_world [Sample.basic_flame])
  = (HTTPException 400 (Msg "Invalid signature"),
     Sample.backend_world [Sample.basic_flame])
  ∧ Root.stripe_webhook Sample.ext Sample.cfg "65f0a1b2c3d4e5f601234567"
      (Some "forged") 7 (Sample.root_world [Sample.basic_flame])
    = (HTTPException 400
         (Msg ("Invalid signature: "
               ++ "No signatures found matching the expected signature")),
       Sample.root_world [Sample.basic_flame]).
Proof.
  apply (webhook_invalid_signature Sample.ext Sample.cfg "whsec_test"
           "65f0a1b2c3d4e5f601234567" (Some "forged") 7
           "No signatures found matching the expected signature");
    [reflexivity | discriminate | reflexivity].
Defined.

(** Without a configured secret src/main.py refuses every webhook before it
    looks at the signature; nothing is written either. *)
Lemma root_webhook_unconfigured (ext : externals) (cfg : Root.config)
    (payload : string) (sig_header : option string) (now : Z) (w : Root.world) :
  Root.STRIPE_WEBHOOK_SECRET cfg = "" →
  Root.stripe_webhook ext cfg payload sig_header now w
  = (HTTPException 400 (Msg "Webhook not configured"), w).
Proof. intros H. unfold Root.stripe_webhook. by rewrite H. Qed.

(** ** The admin listing of src/main.py *)

(** C10: with an unset or empty [ADMIN_KEY], the admin listing of
    src/main.py answers 401 Unauthorized to every request, whatever the
    x-admin-key header holds (absent, empty or any text) and whatever the
    database holds. *)
Theorem admin_flames_fails_closed (cfg : Root.config)
    (x_admin_key : option string) (w : Root.world) :
  Root.ADMIN_KEY cfg = "" →
  Root.admin_flames cfg x_admin_key w = HTTPException 401 (Msg "Unauthorized").
Proof. intros H. unfold Root.admin_flames. by rewrite H. Qed.

Lemma admin_flames_fails_closed_witness :
  Root.admin_flames Sample.cfg (Some "") (Sample.root_world [Sample.basic_flame])
  = HTTPException 401 (Msg "Unauthorized").
Proof.
  apply (admin_flames_fails_closed Sample.cfg (Some "")
           (Sample.root_world [Sample.basic_flame])).
  reflexivity.
Defined.

(** ** Replaying a completed checkout *)


(** A [$set] that does not touch the one field of the filter leaves the
    match as it was. *)
Lemma matches_union_other (k : string) (v : value) (u d : doc) :
  u !! k = None → Mongo.matches [(k, v)] (u ∪ d) = Mongo.matches [(k, v)] d.
Proof. intros Hu. unfold Mongo.matches. simpl. by rewrite lookup_union_r. Qed.








(** ** Creating a flame *)


(** The response of the back end's [create_flame] is never built: the
    dictionary that [create_document] has stamped carries [created_at], and
    the call passes that keyword a second time. *)
Lemma backend_create_flame_raises (payload : Backend.FlameCreate) (now : Z)
    (rand flame_id oid : string) (w : Backend.world) :
  (Backend.create_flame payload now rand flame_id oid w).1
  = Unhandled "TypeError: got multiple values for keyword argument 'created_at'".
Proof.
  unfold Backend.create_flame.
  match goal with
  | |- context [Database.create_document ?db ?n ?o ?c ?d] =>
      destruct (create_document_stored db n o c d) as (st & -> & _ & Hc & _)
  end.
  simpl. unfold Backend.Flame_call. by rewrite Hc.
Qed.




(** ** Replies *)

(** The back end of src/backend gates replies: an unknown flame is 404, a
    flame whose tier is not "premium" is 403, and a premium flame gets
    exactly one new reply document that carries the flame id. *)
Lemma backend_reply_flame_gate (flame_id : string)
    (payload : Backend.FlameReply) (now : Z) (oid : string)
    (w : Backend.world) :
  match backend_flame w flame_id with
  | None =>
      Backend.reply_flame flame_id payload now oid w
      = (HTTPException 404 (Msg "Flame not found"), w)
  | Some flame =>
      if match flame !! "tier" with
         | Some t => Mongo.scalar_eqb t (VStr "premium")
         | None => false
         end
      then
        ∃ reply : doc,
          let w' := (Backend.reply_flame flame_id payload now oid w).2 in
          (Backend.reply_flame flame_id payload now oid w).1
          = Ok {["status" := VStr "ok"]}
          ∧ Database.collection (Backend.db w') "reply"
            = (Database.collection (Backend.db w) "reply" ++ [reply])%list
          ∧ reply !! "flame_id" = Some (VStr flame_id)
          ∧ Database.collection (Backend.db w') "flame"
            = Database.collection (Backend.db w) "flame"
      else
        Backend.reply_flame flame_id payload now oid w
        = (HTTPException 403 (Msg "Replies available for Premium flames"), w)
  end.
Proof.
  unfold backend_flame, Backend.reply_flame.
  destruct (Database.get_document _ _ _) as [flame|]; [|done].
  destruct (match flame !! "tier" with Some _ => _ | None => _ end); [|done].
  cbn [negb].
  match goal with
  | |- context [Database.create_document ?db ?n ?o ?c ?data] =>
      destruct (create_document_stored db n o c data)
        as (st & -> & _ & _ & Hk)
  end.
  exists st. simpl. split; [done|].
  split; [by rewrite collection_insert|].
  split; [by rewrite Hk|]. by rewrite collection_insert_ne.
Qed.

(** C4, on src/main.py: a reply to a basic-tier flame, and a reply to a
    flame that does not exist, both succeed and store a reply document; the
    handler looks at neither the flame nor its tier. *)
Theorem root_reply_flame_ungated :
  let fid := "65f0a1b2c3d4e5f601234567" in
  let body : doc := {["message" := VStr "hello"]} in
  (Sample.basic_flame !! "tier" = Some (VStr "basic")
   ∧ root_flame (Sample.root_world [Sample.basic_flame]) fid
     = Some Sample.basic_flame
   ∧ ∃ reply : doc,
       Root.reply_flame fid body 9 "65f0a1b2c3d4e5f6012345aa"
         (Sample.root_world [Sample.basic_flame])
       = (Ok {["ok" := VBool true]},
          {| Root.db := Some {["flame" := [Sample.basic_flame];
                               "flamereply" := [reply]]};
             Root.sessions := [] |})
       ∧ reply !! "flame_id" = Some (VStr fid))
  ∧ (root_flame (Sample.root_world []) fid = None
     ∧ ∃ reply : doc,
         Root.reply_flame fid body 9 "65f0a1b2c3d4e5f6012345aa"
           (Sample.root_world [])
         = (Ok {["ok" := VBool true]},
            {| Root.db := Some {["flame" := []; "flamereply" := [reply]]};
               Root.sessions := [] |})
         ∧ reply !! "flame_id" = Some (VStr fid)).
Proof.
  split.
  - split; [vm_compute; reflexivity|]. split; [vm_compute; reflexivity|].
    eexists. split; vm_compute; reflexivity.
  - split; [vm_compute; reflexivity|].
    eexists. split; vm_compute; reflexivity.
Qed.

(** ** Checkout *)

(** The back end of src/backend: an unknown flame is 404 before anything
    else, an unknown tier is 400 "Invalid tier", and neither reaches the
    provider; the two known tiers are charged 499 and 999. *)
Lemma backend_checkout_guards (ext : externals) (BASE_URL : string)
    (req : Backend.CheckoutRequest) (w : Backend.world) :
  (backend_flame w (Backend.req_flame_id req) = None →
   Backend.create_checkout_session ext BASE_URL req w
   = (HTTPException 404 (Msg "Flame not found"), w))
  ∧ (is_Some (backend_flame w (Backend.req_flame_id req)) →
     Backend.req_tier req ≠ "basic" → Backend.req_tier req ≠ "premium" →
     Backend.create_checkout_session ext BASE_URL req w
     = (HTTPException 400 (Msg "Invalid tier"), w))
  ∧ (∀ rq, Backend.sessions (Backend.create_checkout_session ext BASE_URL req w).2
           = (Backend.sessions w ++ [rq])%list →
           (Backend.req_tier req = "basic" ∧ unit_amount rq = 499%Z)
           ∨ (Backend.req_tier req = "premium" ∧ unit_amount rq = 999%Z)).
Proof.
  unfold backend_flame, Backend.create_checkout_session.
  split; [by intros ->|]. split.
  - intros [flame ->] Hb Hp.
    assert (Backend.price_map !! Backend.req_tier req = None) as ->; [|done].
    unfold Backend.price_map. simpl.
    by rewrite !lookup_insert_ne.
  - intros rq.
    assert (Hstay : Backend.sessions w ≠ (Backend.sessions w ++ [rq])%list).
    { intros Heq. apply (f_equal length) in Heq.
      rewrite length_app in Heq. simpl in Heq. lia. }
    destruct (Database.get_document _ _ _) as [flame|]; [|done].
    destruct (String.eqb_spec (Backend.req_tier req) "basic") as [->|Hb];
      [|destruct (String.eqb_spec (Backend.req_tier req) "premium") as [->|Hp]].
    + replace (Backend.price_map !! "basic") with (Some 499%Z) by done.
      simpl. destruct (flame !! "slug"), (flame !! "id"); try done.
      destruct (Session_create ext _); [done|].
      simpl. intros Heq. apply app_inv_head in Heq. left. split; [done|].
      by inversion Heq.
    + replace (Backend.price_map !! "premium") with (Some 999%Z) by done.
      simpl. destruct (flame !! "slug"), (flame !! "id"); try done.
      destruct (Session_create ext _); [done|].
      simpl. intros Heq. apply app_inv_head in Heq. right. split; [done|].
      by inversion Heq.
    + assert (Backend.price_map !! Backend.req_tier req = None) as ->; [|done].
      unfold Backend.price_map. simpl. by rewrite !lookup_insert_ne.
Qed.

(** src/main.py charges 499 for "basic" and 999 for "premium". *)
Lemma root_checkout_prices :
  let pay tier : doc :=
    list_to_map [("flame_id", VStr "65f0a1b2c3d4e5f601234567"); ("tier", VStr tier)] in
  unit_amount <$> Root.sessions
    (Root.checkout Sample.ext Sample.cfg (pay "basic")
       (Sample.root_world [Sample.basic_flame])).2 = [499%Z]
  ∧ unit_amount <$> Root.sessions
      (Root.checkout Sample.ext Sample.cfg (pay "premium")
         (Sample.root_world [Sample.basic_flame])).2 = [999%Z].
Proof. split; vm_compute; reflexivity. Qed.

(** In src/main.py every tier that is a string other than "basic" is
    charged 999, when the provider accepts the session. *)
Lemma root_checkout_else_999 (ext : externals) (cfg : Root.config)
    (payload : doc) (t : string) (w : Root.world) :
  Root.STRIPE_SECRET_KEY cfg ≠ "" →
  truthy (default VNone (payload !! "flame_id")) = true →
  payload !! "tier" = Some (VStr t) →
  t ≠ "basic" →
  let out := Root.checkout ext cfg payload w in
  is_ok out.1 = true →
  ∃ rq, Root.sessions out.2 = (Root.sessions w ++ [rq])%list
        ∧ unit_amount rq = 999%Z ∧ meta_tier rq = t.
Proof.
  intros Hkey Hfid Htier Hne. unfold Root.checkout.
  destruct (String.eqb_spec (Root.STRIPE_SECRET_KEY cfg) ""); [done|].
  rewrite Hfid, Htier. simpl.
  destruct (String.eqb_spec t "basic"); [done|].
  destruct (Session_create ext _); [done|].
  simpl. intros _. eexists. repeat split.
Qed.

(** C5, on src/main.py: a checkout for the tier "gold", which is neither
    "basic" nor "premium", is not refused: the handler creates a session at
    the provider and charges 999 minor units for it. *)
Theorem root_checkout_unknown_tier :
  let payload : doc :=
    list_to_map [("flame_id", VStr "65f0a1b2c3d4e5f601234567");
                 ("tier", VStr "gold")] in
  let out := Root.checkout Sample.ext Sample.cfg payload
               (Sample.root_world [Sample.basic_flame]) in
  is_ok out.1 = true
  ∧ ∃ rq, Root.sessions out.2 = [rq]
          ∧ unit_amount rq = 999%Z
          ∧ meta_tier rq = "gold".
Proof. split; [vm_compute; reflexivity|]. eexists. by vm_compute. Qed.

(** C6, on src/main.py: a checkout that names a flame which is not in the
    (here empty) flame collection is not refused with 404: the handler never
    reads the collection and creates a session at the provider. *)
Theorem root_checkout_unknown_flame :
  let payload : doc :=
    list_to_map [("flame_id", VStr "000000000000000000000000");
                 ("tier", VStr "basic")] in
  let out := Root.checkout Sample.ext Sample.cfg payload (Sample.root_world []) in
  root_flame (Sample.root_world []) "000000000000000000000000" = None
  ∧ is_ok out.1 = true
  ∧ ∃ rq, Root.sessions out.2 = [rq]
          ∧ meta_flame_id rq = VStr "000000000000000000000000".
Proof.
  split; [vm_compute; reflexivity|]. split; [vm_compute; reflexivity|].
  eexists. by vm_compute.
Qed.

(** In src/main.py the outcome of a checkout does not depend on the
    database at all. *)
Lemma root_checkout_ignores_db (ext : externals) (cfg : Root.config)
    (payload : doc) (w : Root.world) (d : option store) :
  (Root.checkout ext cfg payload {| Root.db := d; Root.sessions := Root.sessions w |}).1
  = (Root.checkout ext cfg payload w).1.
Proof.
  unfold Root.checkout.
  destruct (String.eqb _ _); [done|]. destruct (negb _); [done|].
  destruct (default (VStr "basic") _); try done.
  by destruct (Session_create ext _).
Qed.

(** ** Rejected creation inputs *)







Lemma backend_validate_photos_keeps (photos : list (list (string * value))) :
  (length (Backend.validate_photos photos) ≤ 3)%nat
  ∧ ∀ p, p ∈ Backend.validate_photos photos →
         Backend.photo_is_safe p = true ∧ p ∈ photos.
Proof.
  unfold Backend.validate_photos. split.
  - rewrite length_take. lia.
  - intros p Hp. apply elem_of_take in Hp as (i & Hi & _).
    assert (In p (List.filter Backend.photo_is_safe photos)) as Hin
      by (apply list_elem_of_In, list_elem_of_lookup; eauto).
    apply filter_In in Hin as [Hin Hsafe]. split; [done|].
    by apply list_elem_of_In.
Qed.




(** * Further properties of the store adapter *)

Lemma scalar_eqb_str (s : string) (v : value) :
  Mongo.scalar_eqb (VStr s) v = true → v = VStr s.
Proof.
  destruct v; simpl; try done. intros H. apply String.eqb_eq in H. by subst.
Qed.

Lemma matches_ext (q : Mongo.query) (d1 d2 : doc) :
  (∀ kv, kv ∈ q → d1 !! kv.1 = d2 !! kv.1) →
  Mongo.matches q d1 = Mongo.matches q d2.
Proof.
  unfold Mongo.matches. induction q as [|kv q IH]; intros H; [done|].
  simpl. rewrite (H kv) by apply list_elem_of_here.
  f_equal. apply IH. intros kv' Hin. apply H. by apply list_elem_of_further.
Qed.

Lemma find_one_Some (q : Mongo.query) (c : list doc) (d : doc) :
  Mongo.find_one q c = Some d → d ∈ c ∧ Mongo.matches q d = true.
Proof.
  induction c as [|a c IH]; [done|]. simpl.
  destruct (Mongo.matches q a) eqn:Ha.
  - intros [= <-]. split; [apply list_elem_of_here|done].
  - intros H. destruct (IH H) as [Hin Hm]. split; [|done].
    by apply list_elem_of_further.
Qed.

Lemma find_one_None (q : Mongo.query) (c : list doc) :
  Mongo.find_one q c = None ↔ ∀ d, d ∈ c → Mongo.matches q d = false.
Proof.
  induction c as [|a c IH]; simpl.
  - split; [|done]. intros _ d Hd. by apply elem_of_nil in Hd.
  - destruct (Mongo.matches q a) eqn:Ha.
    + split; [done|]. intros H. specialize (H a (list_elem_of_here _ _)).
      congruence.
    + rewrite IH. split.
      * intros H d Hd. apply elem_of_cons in Hd as [->|Hd]; auto.
      * intros H d Hd. apply H. by apply list_elem_of_further.
Qed.

Lemma find_one_app (q : Mongo.query) (c c' : list doc) :
  Mongo.find_one q (c ++ c')
  = match Mongo.find_one q c with
    | Some d => Some d
    | None => Mongo.find_one q c'
    end.
Proof.
  induction c as [|a c IH]; [done|]. simpl.
  by destruct (Mongo.matches q a).
Qed.

(** [get_document] answers with a document of the collection that satisfies
    the filter, and with nothing exactly when no document of the collection
    satisfies it. *)
Theorem get_document_sound_complete (db : store) (name : string)
    (filt : Mongo.query) :
  match Database.get_document db name filt with
  | Some d => d ∈ Database.collection db name ∧ Mongo.matches filt d = true
  | None => ∀ d, d ∈ Database.collection db name → Mongo.matches filt d = false
  end.
Proof.
  unfold Database.get_document.
  destruct (Mongo.find_one filt _) as [d|] eqn:H.
  - by apply find_one_Some.
  - by apply find_one_None.
Qed.

Lemma get_documents_facts (db : store) (name : string)
    (filt : Mongo.query) (limit : nat) :
  (length (Database.get_documents db name filt limit) ≤ limit)%nat
  ∧ ∀ d, d ∈ Database.get_documents db name filt limit →
         d ∈ Database.collection db name ∧ Mongo.matches filt d = true.
Proof.
  unfold Database.get_documents, Mongo.find_limit.
  split; [rewrite length_take; lia|].
  intros d Hd. apply elem_of_take in Hd as (i & Hi & _).
  assert (In d (List.filter (Mongo.matches filt) (Database.collection db name)))
    as Hin by (apply list_elem_of_In, list_elem_of_lookup; eauto).
  apply filter_In in Hin as [Hin Hm]. split; [|done].
  by apply list_elem_of_In.
Qed.

(** [get_documents] never returns more than [limit] documents, returns only
    documents of the collection that satisfy the filter, and starts with the
    document [get_document] returns for the same filter. *)
Theorem get_documents_bounded (db : store) (name : string)
    (filt : Mongo.query) (limit : nat) :
  (length (Database.get_documents db name filt limit) ≤ limit)%nat
  ∧ (∀ d, d ∈ Database.get_documents db name filt limit →
          d ∈ Database.collection db name ∧ Mongo.matches filt d = true)
  ∧ head (Database.get_documents db name filt (S limit))
    = Database.get_document db name filt.
Proof.
  split; [apply get_documents_facts|]. split; [apply get_documents_facts|].
  unfold Database.get_documents, Database.get_document, Mongo.find_limit.
  induction (Database.collection db name) as [|a c IH]; [done|].
    simpl. destruct (Mongo.matches filt a); [done|]. exact IH.
Qed.

(** [create_document] only appends: the documents that were in the
    collection stay where they were, every other collection keeps its
    documents, and the stored document holds every field of the caller's
    dictionary other than the two timestamps and "_id" unchanged. *)
Theorem create_document_appends (db : store) (now : Z) (oid name : string)
    (data : doc) :
  let out := Database.create_document db now oid name data in
  (∃ stored : doc,
      Database.collection out.1.1 name
      = (Database.collection db name ++ [stored])%list
      ∧ out.1.2 = stored
      ∧ out.2 = py_str (default (VOid oid) (stored !! "_id"))
      ∧ (∀ k, k ≠ "created_at" → k ≠ "updated_at" → k ≠ "_id" →
              stored !! k = data !! k)
      ∧ is_Some (stored !! "_id"))
  ∧ ∀ other, other ≠ name →
             Database.collection out.1.1 other = Database.collection db other.
Proof.
  intros out. subst out.
  destruct (create_document_stored db now oid name data)
    as (d & Heq & _ & _ & Hk).
  assert (Hid : is_Some (d !! "_id")).
  { revert Heq. unfold Database.create_document, Mongo.insert_one.
    match goal with
    | |- context [match ?m !! "_id" with _ => _ end] =>
        destruct (m !! "_id") eqn:Hm
    end; intros [= _ <- _]; [by rewrite Hm|by rewrite lookup_insert_eq]. }
  rewrite Heq. simpl. split.
  - exists d. rewrite collection_insert. repeat split; auto.
  - intros other Hne. by apply collection_insert_ne.
Qed.

(** Insert and look up: with a filter that leaves the stamped keys alone and
    that the caller's dictionary satisfies, [get_document] after
    [create_document] finds the new document, unless an older document of
    the collection satisfies the filter too: then it still finds that one. *)
Theorem create_then_get_document (db : store) (now : Z) (oid name : string)
    (data : doc) (filt : Mongo.query) :
  (∀ kv, kv ∈ filt →
         kv.1 ≠ "created_at" ∧ kv.1 ≠ "updated_at" ∧ kv.1 ≠ "_id") →
  Mongo.matches filt data = true →
  let out := Database.create_document db now oid name data in
  Database.get_document out.1.1 name filt
  = match Database.get_document db name filt with
    | Some older => Some older
    | None => Some out.1.2
    end.
Proof.
  intros Hq Hm out. subst out.
  destruct (create_document_stored db now oid name data)
    as (d & -> & _ & _ & Hk).
  simpl. unfold Database.get_document. rewrite collection_insert, find_one_app.
  destruct (Mongo.find_one filt (Database.collection db name)); [done|].
  simpl. replace (Mongo.matches filt d) with true; [done|].
  rewrite <- Hm. symmetry. apply matches_ext. intros kv Hin.
  destruct (Hq kv Hin) as (? & ? & ?). by apply Hk.
Qed.

Lemma create_then_get_document_witness :
  let out := Database.create_document {["flame" := [Sample.basic_flame]]} 9
               "65f0a1b2c3d4e5f6012345aa" "flame" {["id" := VStr "abc"]} in
  Database.get_document out.1.1 "flame" [("id", VStr "abc")]
  = match Database.get_document {["flame" := [Sample.basic_flame]]} "flame"
            [("id", VStr "abc")] with
    | Some older => Some older
    | None => Some out.1.2
    end.
Proof.
  apply (create_then_get_document {["flame" := [Sample.basic_flame]]} 9
           "65f0a1b2c3d4e5f6012345aa" "flame" {["id" := VStr "abc"]}
           [("id", VStr "abc")]).
  - intros kv Hin. apply list_elem_of_singleton in Hin. subst kv. simpl.
    repeat split; discriminate.
  - reflexivity.
Defined.

Lemma update_document_lookup (db : store) (now : Z) (name : string)
    (filt : Mongo.query) (patch d : doc) :
  (∀ kv, kv ∈ filt → kv.1 ≠ "updated_at" ∧ patch !! kv.1 = None) →
  Database.get_document db name filt = Some d →
  ∃ d',
    Database.get_document (Database.update_document db now name filt patch)
      name filt = Some d'
    ∧ d' !! "updated_at" = Some (VTime now)
    ∧ ∀ k, k ≠ "updated_at" →
           d' !! k = match patch !! k with Some v => Some v | None => d !! k end.
Proof.
  intros Hq Hd. unfold Database.get_document, Database.update_document in *.
  rewrite collection_insert.
  set (upd := <["updated_at" := VTime now]> patch).
  destruct (update_one_shape filt upd (Database.collection db name))
    as [[Hn _]|(pre & d0 & post & _ & Hpre & Hm & Hf & ->)]; [congruence|].
  assert (d0 = d) by congruence. subst d0.
  exists (upd ∪ d). split; [|split].
  - apply find_one_app_hit; [done|]. rewrite <- Hm. apply matches_ext.
    intros kv Hin. destruct (Hq kv Hin) as [Hne Hnone].
    subst upd. rewrite lookup_union_r; [done|]. by rewrite lookup_insert_ne.
  - subst upd. rewrite lookup_union, lookup_insert_eq.
    by destruct (d !! "updated_at").
  - intros k Hk. subst upd. rewrite lookup_union, lookup_insert_ne by done.
    by destruct (patch !! k), (d !! k).
Qed.

(** Update and look up: when the patch does not write a key the filter
    reads, the document [get_document] found before [update_document] is the
    one it finds afterwards, with the fields of the patch and the adapter's
    [updated_at], and every other field as before. *)
Theorem update_then_get_document (db : store) (now : Z) (name : string)
    (filt : Mongo.query) (patch d : doc) :
  (∀ kv, kv ∈ filt → kv.1 ≠ "updated_at" ∧ patch !! kv.1 = None) →
  Database.get_document db name filt = Some d →
  ∃ d',
    Database.get_document (Database.update_document db now name filt patch)
      name filt = Some d'
    ∧ d' !! "updated_at" = Some (VTime now)
    ∧ ∀ k, k ≠ "updated_at" →
           d' !! k = match patch !! k with Some v => Some v | None => d !! k end.
Proof. apply update_document_lookup. Qed.

Lemma update_then_get_document_witness :
  ∃ d',
    Database.get_document
      (Database.update_document {["flame" := [Sample.basic_flame]]} 9 "flame"
         [("id", VStr "65f0a1b2c3d4e5f601234567")]
         {["payment_status" := VStr "paid"]})
      "flame" [("id", VStr "65f0a1b2c3d4e5f601234567")] = Some d'
    ∧ d' !! "updated_at" = Some (VTime 9)
    ∧ ∀ k, k ≠ "updated_at" →
           d' !! k = match ({["payment_status" := VStr "paid"]} : doc) !! k with
                     | Some v => Some v
                     | None => Sample.basic_flame !! k
                     end.
Proof.
  apply (update_then_get_document {["flame" := [Sample.basic_flame]]} 9 "flame"
           [("id", VStr "65f0a1b2c3d4e5f601234567")]
           {["payment_status" := VStr "paid"]} Sample.basic_flame).
  - intros kv Hin. apply list_elem_of_singleton in Hin. subst kv. simpl.
    split; [discriminate|reflexivity].
  - reflexivity.
Defined.

(** * Further properties of src/backend/main.py *)

Lemma matches_id (fid : string) (d : doc) :
  Mongo.matches [("id", VStr fid)] d = true → d !! "id" = Some (VStr fid).
Proof.
  unfold Mongo.matches. simpl. destruct (d !! "id") as [v|]; [|done].
  rewrite andb_true_r. intros H. by rewrite (scalar_eqb_str _ _ H).
Qed.

(** The flame that [create_flame] stores can be found by its id when the id
    is fresh. *)
Lemma backend_create_flame_lookup (payload : Backend.FlameCreate) (now : Z)
    (rand flame_id oid : string) (w : Backend.world) :
  backend_flame w flame_id = None →
  ∃ stored : doc,
    backend_flame (Backend.create_flame payload now rand flame_id oid w).2 flame_id
    = Some stored
    ∧ Database.collection
        (Backend.db (Backend.create_flame payload now rand flame_id oid w).2) "flame"
      = (Database.collection (Backend.db w) "flame" ++ [stored])%list
    ∧ stored !! "tier" = Some (VStr (Backend.tier payload))
    ∧ stored !! "message" = Some (VStr (Backend.message payload))
    ∧ stored !! "payment_status" = Some (VStr "pending")
    ∧ stored !! "watermark"
      = Some (VBool (negb (String.eqb (Backend.tier payload) "premium")))
    ∧ is_Some (stored !! "created_at").
Proof.
  intros Hfresh. unfold backend_flame, Database.get_document in *.
  unfold Backend.create_flame.
  match goal with
  | |- context [Database.create_document ?db ?n ?o ?c ?data] =>
      destruct (create_document_stored db n o c data)
        as (st & -> & _ & Hc & Hk)
  end.
  exists st. simpl. rewrite collection_insert, find_one_app, Hfresh. simpl.
  assert (Hid : st !! "id" = Some (VStr flame_id)) by (by rewrite Hk).
  unfold Mongo.matches. simpl. rewrite Hid. simpl. rewrite String.eqb_refl.
  simpl. repeat split; try (by rewrite Hk). by rewrite Hc.
Qed.

Lemma backend_create_flame_other (payload : Backend.FlameCreate) (now : Z)
    (rand flame_id oid other : string) (w : Backend.world) :
  other ≠ "flame" →
  Database.collection
    (Backend.db (Backend.create_flame payload now rand flame_id oid w).2) other
  = Database.collection (Backend.db w) other.
Proof.
  intros Hne. unfold Backend.create_flame.
  match goal with
  | |- context [Database.create_document ?db ?n ?o ?c ?data] =>
      destruct (create_document_stored db n o c data) as (st & -> & _)
  end.
  simpl. by rewrite collection_insert_ne.
Qed.

(** POST /flames of the back end never answers with the flame: for every
    validated input it stores the flame (findable by its id, with the tier,
    the message, status "pending" and the watermark flag set unless the tier
    is "premium") and then fails with the TypeError of the duplicated
    [created_at] keyword; no checkout session is touched. *)
Theorem backend_create_flame_stores_then_fails (payload : Backend.FlameCreate)
    (now : Z) (rand flame_id oid : string) (w : Backend.world) :
  backend_flame w flame_id = None →
  let out := Backend.create_flame payload now rand flame_id oid w in
  is_ok out.1 = false
  ∧ Backend.sessions out.2 = Backend.sessions w
  ∧ ∃ stored : doc,
      backend_flame out.2 flame_id = Some stored
      ∧ stored !! "tier" = Some (VStr (Backend.tier payload))
      ∧ stored !! "message" = Some (VStr (Backend.message payload))
      ∧ stored !! "payment_status" = Some (VStr "pending")
      ∧ stored !! "watermark"
        = Some (VBool (negb (String.eqb (Backend.tier payload) "premium"))).
Proof.
  intros Hfresh out. subst out.
  rewrite backend_create_flame_raises. split; [done|]. split.
  - unfold Backend.create_flame.
    by destruct (Database.create_document _ _ _ _ _) as [[? ?] ?].
  - destruct (backend_create_flame_lookup payload now rand flame_id oid w Hfresh)
      as (st & ? & _ & ? & ? & ? & ? & _).
    by exists st.
Qed.

Lemma backend_create_flame_stores_then_fails_witness :
  let out := Backend.create_flame Sample.backend_obj 100 "Zm9vYmFyYmF6"
               "c2VjcmV0LWlk" "65f0a1b2c3d4e5f6012345aa"
               (Sample.backend_world [Sample.basic_flame]) in
  is_ok out.1 = false
  ∧ Backend.sessions out.2
    = Backend.sessions (Sample.backend_world [Sample.basic_flame])
  ∧ ∃ stored : doc,
      backend_flame out.2 "c2VjcmV0LWlk" = Some stored
      ∧ stored !! "tier" = Some (VStr (Backend.tier Sample.backend_obj))
      ∧ stored !! "message" = Some (VStr (Backend.message Sample.backend_obj))
      ∧ stored !! "payment_status" = Some (VStr "pending")
      ∧ stored !! "watermark"
        = Some (VBool (negb (String.eqb (Backend.tier Sample.backend_obj)
                               "premium"))).
Proof.
  apply (backend_create_flame_stores_then_fails Sample.backend_obj 100
           "Zm9vYmFyYmF6" "c2VjcmV0LWlk" "65f0a1b2c3d4e5f6012345aa"
           (Sample.backend_world [Sample.basic_flame])).
  reflexivity.
Defined.

(** Creation and reply compose: on a flame just created under a fresh id, a
    reply is stored when the flame was created with tier "premium", and is
    refused with 403 for every other tier. *)
Theorem backend_create_then_reply (payload : Backend.FlameCreate)
    (reply : Backend.FlameReply) (now now' : Z)
    (rand flame_id oid oid' : string) (w : Backend.world) :
  backend_flame w flame_id = None →
  let w1 := (Backend.create_flame payload now rand flame_id oid w).2 in
  let out := Backend.reply_flame flame_id reply now' oid' w1 in
  if String.eqb (Backend.tier payload) "premium"
  then out.1 = Ok {["status" := VStr "ok"]}
       ∧ ∃ r : doc,
           Database.collection (Backend.db out.2) "reply"
           = (Database.collection (Backend.db w) "reply" ++ [r])%list
           ∧ r !! "flame_id" = Some (VStr flame_id)
  else out = (HTTPException 403 (Msg "Replies available for Premium flames"), w1).
Proof.
  intros Hfresh w1 out.
  destruct (backend_create_flame_lookup payload now rand flame_id oid w Hfresh)
    as (st & Hfind & Hcoll & Htier & _).
  pose proof (backend_create_flame_other payload now rand flame_id oid "reply" w)
    as Hframe.
  pose proof (backend_reply_flame_gate flame_id reply now' oid' w1) as Hgate.
  fold w1 in Hfind, Hframe. rewrite Hfind, Htier in Hgate.
  clearbody w1. simpl in Hgate.
  destruct (String.eqb (Backend.tier payload) "premium"); [|exact Hgate].
  destruct Hgate as (r & Hok & Hr & Hfid & _). split; [exact Hok|].
  exists r. split; [|exact Hfid]. fold out in Hr. rewrite Hr.
  by rewrite Hframe.
Qed.

Lemma backend_create_then_reply_witness :
  let w1 := (Backend.create_flame Sample.backend_obj 100 "Zm9vYmFyYmF6"
               "c2VjcmV0LWlk" "65f0a1b2c3d4e5f6012345aa"
               (Sample.backend_world [])).2 in
  let out := Backend.reply_flame "c2VjcmV0LWlk"
               {| Backend.reply_flame_id := "c2VjcmV0LWlk";
                  Backend.reply_message := "thank you";
                  Backend.reply_sender_name := None |}
               101 "65f0a1b2c3d4e5f6012345ab" w1 in
  out = (HTTPException 403 (Msg "Replies available for Premium flames"), w1).
Proof.
  apply (backend_create_then_reply Sample.backend_obj
           {| Backend.reply_flame_id := "c2VjcmV0LWlk";
              Backend.reply_message := "thank you";
              Backend.reply_sender_name := None |}
           100 101 "Zm9vYmFyYmF6" "c2VjcmV0LWlk" "65f0a1b2c3d4e5f6012345aa"
           "65f0a1b2c3d4e5f6012345ab" (Sample.backend_world [])).
  reflexivity.
Defined.

Lemma filter_all_true {A} (P : A → bool) (l : list A) :
  (∀ x, In x l → P x = true) → List.filter P l = l.
Proof.
  induction l as [|a l IH]; intros H; [done|]. simpl.
  rewrite (H a) by (by left). f_equal. apply IH. intros x Hx. apply H. by right.
Qed.

(** [validate_photos] is a projection: validating its own result changes
    nothing; a list of at most three safe photos is returned as it is; and
    no photo is returned when none is given. *)
Theorem backend_validate_photos_idempotent
    (photos : list (list (string * value))) :
  Backend.validate_photos (Backend.validate_photos photos)
  = Backend.validate_photos photos
  ∧ ((length photos ≤ 3)%nat →
     (∀ p, p ∈ photos → Backend.photo_is_safe p = true) →
     Backend.validate_photos photos = photos)
  ∧ Backend.validate_photos [] = [].
Proof.
  split; [|split; [|done]].
  - unfold Backend.validate_photos at 1.
    rewrite filter_all_true.
    + unfold Backend.validate_photos. rewrite take_take. f_equal.
    + intros p Hp. apply list_elem_of_In in Hp.
      by apply backend_validate_photos_keeps in Hp as [? _].
  - intros Hlen Hsafe. unfold Backend.validate_photos.
    rewrite filter_all_true.
    + by apply take_ge.
    + intros p Hp. apply Hsafe. by apply list_elem_of_In.
Qed.

(** POST /checkout of the back end never writes to the database; it
    registers a session at the provider exactly when it answers 200, and
    that session carries the requested flame id and tier as metadata and
    the price of the tier. *)
Theorem backend_checkout_effects (ext : externals) (BASE_URL : string)
    (req : Backend.CheckoutRequest) (w : Backend.world) :
  let out := Backend.create_checkout_session ext BASE_URL req w in
  Backend.db out.2 = Backend.db w
  ∧ match out.1 with
    | Ok resp =>
        ∃ rq s,
          Backend.sessions out.2 = (Backend.sessions w ++ [rq])%list
          ∧ Session_create ext rq = inr s
          ∧ resp !! "id" = Some (VStr (session_id s))
          ∧ resp !! "url" = Some (VStr (session_url s))
          ∧ meta_flame_id rq = VStr (Backend.req_flame_id req)
          ∧ meta_tier rq = Backend.req_tier req
          ∧ Backend.price_map !! Backend.req_tier req = Some (unit_amount rq)
    | _ => Backend.sessions out.2 = Backend.sessions w
    end.
Proof.
  unfold Backend.create_checkout_session, Database.get_document.
  destruct (Mongo.find_one _ _) as [flame|] eqn:Hf; [|done].
  apply find_one_Some in Hf as [_ Hm]. apply matches_id in Hm.
  destruct (Backend.price_map !! Backend.req_tier req) as [amount|]; [|done].
  destruct (amount =? 0)%Z; [done|].
  rewrite Hm. destruct (flame !! "slug") as [slug|]; [|done].
  destruct (Session_create ext _) as [e|s] eqn:Hs; [done|].
  simpl. split; [done|]. eexists _, s. by repeat split.
Qed.

Lemma scalar_eqb_bool (b : bool) (v : value) :
  Mongo.scalar_eqb (VBool b) v = true → v = VBool b.
Proof.
  destruct v; try done. unfold Mongo.scalar_eqb. intros H.
  apply Bool.eqb_prop in H. by subst.
Qed.

Lemma matches_cons (k : string) (v : value) (q : Mongo.query) (d : doc) :
  Mongo.matches ((k, v) :: q) d
  = match d !! k with Some w => Mongo.scalar_eqb v w | None => false end
    && Mongo.matches q d.
Proof. reflexivity. Qed.

Lemma matches_public_paid (d : doc) :
  Mongo.matches [("allow_public_gallery", VBool true);
                 ("payment_status", VStr "paid")] d = true →
  d !! "allow_public_gallery" = Some (VBool true)
  ∧ d !! "payment_status" = Some (VStr "paid").
Proof.
  rewrite !matches_cons. intros H.
  apply andb_true_iff in H as [H1 H]. apply andb_true_iff in H as [H2 _].
  destruct (d !! "allow_public_gallery") as [v|]; [|done].
  destruct (d !! "payment_status") as [v'|]; [|done].
  by rewrite (scalar_eqb_bool _ _ H1), (scalar_eqb_str _ _ H2).
Qed.

Lemma matches_paid (d : doc) :
  Mongo.matches [("payment_status", VStr "paid")] d = true →
  d !! "payment_status" = Some (VStr "paid").
Proof.
  rewrite matches_cons. intros H. apply andb_true_iff in H as [H _].
  destruct (d !! "payment_status") as [v|]; [|done].
  by rewrite (scalar_eqb_str _ _ H).
Qed.

(** GET /gallery of the back end lists at most 100 flames; every item is a
    stored flame that opted in and is paid, without its "_id".  A flame that
    is not paid, or did not opt in, is never listed. *)
Theorem backend_gallery_public_paid (w : Backend.world) :
  (length (Backend.public_gallery w) ≤ 100)%nat
  ∧ ∀ item, item ∈ Backend.public_gallery w →
      item !! "_id" = None
      ∧ item !! "allow_public_gallery" = Some (VBool true)
      ∧ item !! "payment_status" = Some (VStr "paid")
      ∧ ∃ d, d ∈ Database.collection (Backend.db w) "flame"
             ∧ item = delete "_id" d.
Proof.
  unfold Backend.public_gallery. split.
  - rewrite length_fmap.
    apply (get_documents_facts (Backend.db w) "flame" _ 100).
  - intros item Hitem. apply list_elem_of_fmap in Hitem as (d & -> & Hd).
    apply (get_documents_facts (Backend.db w) "flame" _ 100) in Hd
      as [Hin Hm].
    apply matches_public_paid in Hm as [Hpub Hpaid].
    rewrite lookup_delete_eq, !lookup_delete_ne by done.
    repeat split; [done..|]. by exists d.
Qed.

(** GET /admin/flames of the back end answers 401 exactly when the header is
    absent or differs from [ADMIN_KEY]; an empty [ADMIN_KEY] is therefore
    matched by an empty header.  With the key it lists at most 500 flames,
    all of them paid and without "_id". *)
Theorem backend_admin_flames_access (ADMIN_KEY : string)
    (x_admin_key : option string) (w : Backend.world) :
  (Backend.admin_flames ADMIN_KEY x_admin_key w
   = HTTPException 401 (Msg "Unauthorized")
   ↔ x_admin_key ≠ Some ADMIN_KEY)
  ∧ is_ok (Backend.admin_flames "" (Some "") w) = true
  ∧ ∀ items, Backend.admin_flames ADMIN_KEY x_admin_key w = Ok items →
      (length items ≤ 500)%nat
      ∧ ∀ item, item ∈ items →
          item !! "_id" = None
          ∧ item !! "payment_status" = Some (VStr "paid").
Proof.
  unfold Backend.admin_flames. split; [|split; [done|]].
  - destruct x_admin_key as [k|]; simpl; [|by split].
    destruct (String.eqb_spec k ADMIN_KEY) as [->|Hne]; simpl.
    + split; [done|]. intros H. by destruct H.
    + split; [|done]. intros _ [= ?]. done.
  - destruct (negb _); [done|]. intros items [= <-]. split.
    + rewrite length_fmap.
      apply (get_documents_facts (Backend.db w) "flame" _ 500).
    + intros item Hitem. apply list_elem_of_fmap in Hitem as (d & -> & Hd).
      apply (get_documents_facts (Backend.db w) "flame" _ 500) in Hd
        as [_ Hm].
      apply matches_paid in Hm.
      by rewrite lookup_delete_eq, lookup_delete_ne.
Qed.

(** Every webhook that verifies is acknowledged with {"received": true} and
    touches no checkout session; and it changes no document at all when the
    event is of another type, names no flame, names the empty id, or names a
    flame that is not in the collection. *)
Theorem backend_webhook_acknowledges (ext : externals)
    (secret payload : string) (sig_header : option string) (now : Z)
    (ev : event) (w : Backend.world) :
  construct_event ext payload sig_header secret = inr ev →
  let out := Backend.stripe_webhook ext secret payload sig_header now w in
  out.1 = Ok Backend.received
  ∧ Backend.sessions out.2 = Backend.sessions w
  ∧ (ev_type ev ≠ "checkout.session.completed"
     ∨ match default ∅ (ev_metadata ev) !! "flame_id" with
       | Some flame_id => flame_id = "" ∨ backend_flame w flame_id = None
       | None => True
       end →
     ∀ name, Database.collection (Backend.db out.2) name
             = Database.collection (Backend.db w) name).
Proof.
  intros Hev out. subst out. unfold Backend.stripe_webhook. rewrite Hev.
  destruct (String.eqb_spec (ev_type ev) "checkout.session.completed")
    as [Hty|Hty]; [|by repeat split].
  destruct (default ∅ (ev_metadata ev) !! "flame_id") as [fid|];
    [|by repeat split].
  destruct (String.eqb_spec fid "") as [Hfid|Hfid]; [by repeat split|].
  simpl. repeat split. intros [?|[?|Hnone]] name; [done..|].
  unfold backend_flame, Database.get_document in Hnone.
  unfold Database.update_document.
  destruct (decide (name = "flame")) as [->|Hne].
  - rewrite collection_insert.
    match goal with
    | |- context [Mongo.update_one ?q ?u ?c] =>
        destruct (update_one_shape q u c)
          as [[_ ->]|(? & ? & ? & _ & _ & _ & ? & _)]; [done|congruence]
    end.
  - by rewrite collection_insert_ne.
Qed.

Lemma backend_webhook_acknowledges_witness :
  let out := Backend.stripe_webhook Sample.ext "whsec_test"
               "65f0a1b2c3d4e5f601234567" (Some "whsec_test") 7
               (Sample.backend_world []) in
  out.1 = Ok Backend.received
  ∧ Backend.sessions out.2 = Backend.sessions (Sample.backend_world [])
  ∧ (ev_type {| ev_type := "checkout.session.completed";
                ev_metadata := Some {["flame_id" := "65f0a1b2c3d4e5f601234567"]} |}
     ≠ "checkout.session.completed"
     ∨ match default ∅ (ev_metadata
                          {| ev_type := "checkout.session.completed";
                             ev_metadata :=
                               Some {["flame_id" := "65f0a1b2c3d4e5f601234567"]} |})
             !! "flame_id" with
       | Some flame_id =>
           flame_id = "" ∨ backend_flame (Sample.backend_world []) flame_id = None
       | None => True
       end →
     ∀ name, Database.collection (Backend.db out.2) name
             = Database.collection (Backend.db (Sample.backend_world [])) name).
Proof.
  apply (backend_webhook_acknowledges Sample.ext "whsec_test"
           "65f0a1b2c3d4e5f601234567" (Some "whsec_test") 7
           {| ev_type := "checkout.session.completed";
              ev_metadata := Some {["flame_id" := "65f0a1b2c3d4e5f601234567"]} |}
           (Sample.backend_world [])).
  reflexivity.
Defined.

(** What a completed checkout writes in the back end: in the flame
    collection exactly one document changes, the first one with the id of
    the event; it becomes "paid", takes the tier of the event's metadata
    ("basic" when the metadata names none, whatever tier the flame had) and
    the time of the delivery, and keeps every other field.  No other
    collection changes. *)
Theorem backend_webhook_effect (ext : externals) (secret payload : string)
    (sig_header : option string) (now : Z) (ev : event) (flame_id : string)
    (flame : doc) (w : Backend.world) :
  construct_event ext payload sig_header secret = inr ev →
  ev_type ev = "checkout.session.completed" →
  default ∅ (ev_metadata ev) !! "flame_id" = Some flame_id →
  flame_id ≠ "" →
  backend_flame w flame_id = Some flame →
  let out := Backend.stripe_webhook ext secret payload sig_header now w in
  (∃ pre post flame',
      Database.collection (Backend.db w) "flame" = (pre ++ flame :: post)%list
      ∧ Database.collection (Backend.db out.2) "flame"
        = (pre ++ flame' :: post)%list
      ∧ backend_flame out.2 flame_id = Some flame'
      ∧ flame' !! "payment_status" = Some (VStr "paid")
      ∧ flame' !! "tier"
        = Some (VStr (default "basic" (default ∅ (ev_metadata ev) !! "tier")))
      ∧ flame' !! "updated_at" = Some (VTime now)
      ∧ ∀ k, k ≠ "payment_status" → k ≠ "tier" → k ≠ "updated_at" →
             flame' !! k = flame !! k)
  ∧ ∀ name, name ≠ "flame" →
            Database.collection (Backend.db out.2) name
            = Database.collection (Backend.db w) name.
Proof.
  intros Hev Hty Hfid Hne Hflame out. subst out.
  unfold Backend.stripe_webhook. rewrite Hev, Hty, Hfid. simpl.
  destruct (String.eqb_spec flame_id ""); [done|]. simpl.
  unfold backend_flame, Database.get_document, Database.update_document in *.
  simpl. rewrite collection_insert. split.
  - match goal with
    | |- context [Mongo.update_one ?q ?u ?c] =>
        destruct (update_one_shape q u c)
          as [[Hn _]|(pre & d & post & Hc & Hpre & Hm & Hf & Hu)];
          [congruence|]; set (upd := u) in *
    end.
    assert (d = flame) by congruence. subst d.
    exists pre, post, (upd ∪ flame). rewrite Hu.
    split; [done|]. split; [done|]. split.
    { apply find_one_app_hit; [done|]. rewrite matches_union_other; [done|].
      subst upd. by rewrite lookup_insert_ne. }
    subst upd. repeat split.
    + by rewrite lookup_union, lookup_insert_ne by done;
        destruct (flame !! "payment_status").
    + rewrite lookup_union, lookup_insert_ne by done.
      rewrite (lookup_insert_ne _ "payment_status" "tier") by done.
      rewrite lookup_insert_eq. by destruct (flame !! "tier").
    + rewrite lookup_union, lookup_insert_eq. by destruct (flame !! "updated_at").
    + intros k ? ? ?. rewrite lookup_union. simpl.
      rewrite !lookup_insert_ne by done. rewrite lookup_empty.
      by destruct (flame !! k).
  - intros name Hname. by rewrite collection_insert_ne.
Qed.

Lemma backend_webhook_effect_witness :
  let w := Sample.backend_world [Sample.premium_flame] in
  let out := Backend.stripe_webhook Sample.ext "whsec_test"
               "65f0a1b2c3d4e5f601234567" (Some "whsec_test") 7 w in
  (∃ pre post flame',
      Database.collection (Backend.db w) "flame"
      = (pre ++ Sample.premium_flame :: post)%list
      ∧ Database.collection (Backend.db out.2) "flame"
        = (pre ++ flame' :: post)%list
      ∧ backend_flame out.2 "65f0a1b2c3d4e5f601234567" = Some flame'
      ∧ flame' !! "payment_status" = Some (VStr "paid")
      ∧ flame' !! "tier" = Some (VStr "basic")
      ∧ flame' !! "updated_at" = Some (VTime 7)
      ∧ ∀ k, k ≠ "payment_status" → k ≠ "tier" → k ≠ "updated_at" →
             flame' !! k = Sample.premium_flame !! k)
  ∧ ∀ name, name ≠ "flame" →
            Database.collection (Backend.db out.2) name
            = Database.collection (Backend.db w) name.
Proof.
  apply (backend_webhook_effect Sample.ext "whsec_test"
           "65f0a1b2c3d4e5f601234567" (Some "whsec_test") 7 Sample.completed
           "65f0a1b2c3d4e5f601234567" Sample.premium_flame
           (Sample.backend_world [Sample.premium_flame]));
    [reflexivity | reflexivity | reflexivity | discriminate | reflexivity].
Defined.

(** GET /flames/{slug} of the back end answers 404 exactly when no flame has
    the slug, and never answers with a flame that carries [created_at]: in
    a database whose flames were all written by [create_document] it
    answers 404 or fails, for every slug. *)
Theorem backend_get_flame_never_succeeds (slug : string) (now : Z)
    (w : Backend.world) :
  (∀ d, d ∈ Database.collection (Backend.db w) "flame" →
        is_Some (d !! "created_at")) →
  is_ok (Backend.get_flame slug now w) = false
  ∧ (Backend.get_flame slug now w = HTTPException 404 (Msg "Not found")
     ↔ ∀ d, d ∈ Database.collection (Backend.db w) "flame" →
            d !! "slug" ≠ Some (VStr slug)).
Proof.
  intros Hinv. unfold Backend.get_flame, Database.get_document.
  destruct (Mongo.find_one _ _) as [flame|] eqn:Hf.
  - apply find_one_Some in Hf as [Hin Hm].
    destruct (Hinv flame Hin) as [v Hv]. unfold Backend.Flame_call. rewrite Hv.
    split; [done|]. split; [done|]. intros Hno. exfalso. apply (Hno flame Hin).
    rewrite matches_cons in Hm. apply andb_true_iff in Hm as [Hm _].
    destruct (flame !! "slug") as [v'|]; [|done].
    by rewrite (scalar_eqb_str _ _ Hm).
  - split; [done|]. split; [|done]. intros _ d Hd Hslug.
    rewrite find_one_None in Hf. specialize (Hf d Hd).
    rewrite matches_cons, Hslug in Hf. unfold Mongo.scalar_eqb in Hf.
    by rewrite String.eqb_refl in Hf.
Qed.

Lemma backend_get_flame_never_succeeds_witness :
  let w := (Backend.create_flame Sample.backend_obj 100 "Zm9vYmFyYmF6"
              "c2VjcmV0LWlk" "65f0a1b2c3d4e5f6012345aa"
              (Sample.backend_world [])).2 in
  is_ok (Backend.get_flame "alex-from-sam-Zm9vYmFyYmF6" 101 w) = false
  ∧ (Backend.get_flame "alex-from-sam-Zm9vYmFyYmF6" 101 w
     = HTTPException 404 (Msg "Not found")
     ↔ ∀ d, d ∈ Database.collection (Backend.db w) "flame" →
            d !! "slug" ≠ Some (VStr "alex-from-sam-Zm9vYmFyYmF6")).
Proof.
  apply (backend_get_flame_never_succeeds "alex-from-sam-Zm9vYmFyYmF6" 101
           (Backend.create_flame Sample.backend_obj 100 "Zm9vYmFyYmF6"
              "c2VjcmV0LWlk" "65f0a1b2c3d4e5f6012345aa"
              (Sample.backend_world [])).2).
  intros d Hd.
  destruct (backend_create_flame_lookup Sample.backend_obj 100 "Zm9vYmFyYmF6"
              "c2VjcmV0LWlk" "65f0a1b2c3d4e5f6012345aa" (Sample.backend_world [])
              eq_refl) as (st & _ & Hc & _ & _ & _ & _ & Hcreated).
  rewrite Hc in Hd. apply list_elem_of_singleton in Hd. by subst d.
Defined.

(** * Further properties of src/main.py *)

Lemma root_validate_ignores_unknown (ext : externals) (payload : doc)
    (k : string) (v : value) :
  k ∉ ["recipient_name"; "sender_name"; "message"; "photos"; "flame_color";
       "tier"; "schedule_date"; "allow_public_gallery"] →
  Root.FlameCreate_validate ext (<[k := v]> payload)
  = Root.FlameCreate_validate ext payload.
Proof.
  intros Hk. rewrite !not_elem_of_cons in Hk.
  destruct Hk as (? & ? & ? & ? & ? & ? & ? & ? & _).
  unfold Root.FlameCreate_validate. by rewrite !lookup_insert_ne by done.
Qed.

(** POST /flames of src/main.py reads nine keys of the body and no other: a
    key outside the schema and "captcha_token" (be it "payment_status",
    "slug", "_id", "created_at" or anything else) changes neither the answer
    nor what is stored. *)
Theorem root_create_flame_ignores_unknown (ext : externals) (cfg : Root.config)
    (payload : doc) (k : string) (v : value) (now : Z) (token oid : string)
    (w : Root.world) :
  k ∉ ["captcha_token"; "recipient_name"; "sender_name"; "message"; "photos";
       "flame_color"; "tier"; "schedule_date"; "allow_public_gallery"] →
  Root.create_flame ext cfg (<[k := v]> payload) now token oid w
  = Root.create_flame ext cfg payload now token oid w.
Proof.
  intros Hk. apply not_elem_of_cons in Hk as [Hc Hk].
  unfold Root.create_flame.
  rewrite (lookup_insert_ne payload k "captcha_token") by done.
  rewrite (delete_insert_ne payload "captcha_token" k) by done.
  by rewrite root_validate_ignores_unknown.
Qed.

Lemma root_create_flame_ignores_unknown_witness :
  Root.create_flame Sample.ext Sample.cfg
    (<["payment_status" := VStr "paid"]> Sample.body) 100 "Zm9vYmFyYmF6"
    "65f0a1b2c3d4e5f601234567" (Sample.root_world [])
  = Root.create_flame Sample.ext Sample.cfg Sample.body 100 "Zm9vYmFyYmF6"
      "65f0a1b2c3d4e5f601234567" (Sample.root_world []).
Proof.
  apply (root_create_flame_ignores_unknown Sample.ext Sample.cfg Sample.body
           "payment_status" (VStr "paid") 100 "Zm9vYmFyYmF6"
           "65f0a1b2c3d4e5f601234567" (Sample.root_world [])).
  rewrite !not_elem_of_cons. repeat split; try discriminate.
  apply not_elem_of_nil.
Defined.

Ltac destruct_root_create :=
  match goal with
  | |- context [Root.create_document ?d ?n ?o ?c ?x] =>
      destruct (Root.create_document d n o c x)
  end.

(** POST /flames of src/main.py answers 400 "CAPTCHA failed" exactly when a
    human-verification secret is configured and the token is missing or
    falsy or the verification service does not confirm it; the request then
    changes nothing.  Without a secret no token is ever refused. *)
Theorem root_create_flame_captcha (ext : externals) (cfg : Root.config)
    (payload : doc) (now : Z) (token oid : string) (w : Root.world) :
  let captcha_token := default VNone (payload !! "captcha_token") in
  let out := Root.create_flame ext cfg payload now token oid w in
  (out.1 = HTTPException 400 (Msg "CAPTCHA failed")
   ↔ Root.HCAPTCHA_SECRET cfg ≠ ""
     ∧ (truthy captcha_token = false
        ∨ siteverify ext (Root.HCAPTCHA_SECRET cfg) captcha_token = false))
  ∧ (out.1 = HTTPException 400 (Msg "CAPTCHA failed") → out.2 = w).
Proof.
  cbv zeta. unfold Root.create_flame, Root.verify_hcaptcha.
  destruct (String.eqb_spec (Root.HCAPTCHA_SECRET cfg) "") as [Hs|Hs].
  - cbn [negb].
    destruct (Root.FlameCreate_validate _ _);
      [destruct (Root.db w); [destruct_root_create|]|];
      cbn [fst snd]; (split; [|done]); (split; [done|]); by intros [? _].
  - destruct (truthy (default VNone (payload !! "captcha_token")));
      cbn [negb]; [destruct (siteverify ext _ _); cbn [negb]|].
    + destruct (Root.FlameCreate_validate _ _);
        [destruct (Root.db w); [destruct_root_create|]|];
        cbn [fst snd]; (split; [|done]); (split; [done|]);
        by intros [_ [?|?]].
    + cbn [fst snd]. split; [|done]. split; [|done].
      intros _. split; [done|]. by right.
    + cbn [fst snd]. split; [|done]. split; [|done].
      intros _. split; [done|]. by left.
Qed.

(** POST /checkout of src/main.py never writes to the database and never
    fails with anything but 400 or 422; it registers a session at the
    provider exactly when it answers 200, for the flame id of the body, and
    at 499 when the tier is "basic" and at 999 in every other case. *)
Theorem root_checkout_effects (ext : externals) (cfg : Root.config)
    (payload : doc) (w : Root.world) :
  let out := Root.checkout ext cfg payload w in
  Root.db out.2 = Root.db w
  ∧ match out.1 with
    | Ok resp =>
        ∃ rq s,
          Root.sessions out.2 = (Root.sessions w ++ [rq])%list
          ∧ Session_create ext rq = inr s
          ∧ resp !! "id" = Some (VStr (session_id s))
          ∧ resp !! "url" = Some (VStr (session_url s))
          ∧ Root.STRIPE_SECRET_KEY cfg ≠ ""
          ∧ payload !! "flame_id" = Some (meta_flame_id rq)
          ∧ truthy (meta_flame_id rq) = true
          ∧ default (VStr "basic") (payload !! "tier") = VStr (meta_tier rq)
          ∧ unit_amount rq
            = (if String.eqb (meta_tier rq) "basic" then 499 else 999)%Z
    | HTTPException code _ =>
        Root.sessions out.2 = Root.sessions w ∧ (code = 400 ∨ code = 422)%Z
    | Unhandled _ => False
    end.
Proof.
  cbv zeta. unfold Root.checkout.
  destruct (String.eqb_spec (Root.STRIPE_SECRET_KEY cfg) "");
    [simpl; by auto|].
  destruct (payload !! "flame_id") as [fid|]; simpl; [|by auto].
  destruct (truthy fid) eqn:Hfid; simpl; [|by auto].
  destruct (default (VStr "basic") (payload !! "tier")) as [| | |t| | | | |] eqn:Ht;
    simpl; try by auto.
  destruct (Session_create ext _) as [e|s] eqn:Hs; simpl; [by auto|].
  split; [done|]. eexists _, s. by repeat split.
Qed.

(** Every webhook that verifies against a configured secret is acknowledged
    by src/main.py with {"received": true} and touches no checkout session;
    it changes no document when the event is of another type, names no
    flame or the empty id, names an id that is no ObjectId (the exception is
    swallowed), names a flame that is not there, or no database is
    configured. *)
Theorem root_webhook_acknowledges (ext : externals) (cfg : Root.config)
    (payload : string) (sig_header : option string) (now : Z) (ev : event)
    (w : Root.world) :
  Root.STRIPE_WEBHOOK_SECRET cfg ≠ "" →
  construct_event ext payload sig_header (Root.STRIPE_WEBHOOK_SECRET cfg)
  = inr ev →
  let out := Root.stripe_webhook ext cfg payload sig_header now w in
  out.1 = Ok Root.received
  ∧ Root.sessions out.2 = Root.sessions w
  ∧ (ev_type ev ≠ "checkout.session.completed"
     ∨ Root.db w = None
     ∨ match default ∅ (ev_metadata ev) !! "flame_id" with
       | Some flame_id =>
           flame_id = "" ∨ Root.ObjectId flame_id = None
           ∨ root_flame w flame_id = None
       | None => True
       end →
     match Root.db w, Root.db out.2 with
     | Some d, Some d' =>
         ∀ name, Database.collection d' name = Database.collection d name
     | None, None => True
     | _, _ => False
     end).
Proof.
  intros Hsec Hev. cbv zeta. unfold Root.stripe_webhook, root_flame.
  destruct (String.eqb_spec (Root.STRIPE_WEBHOOK_SECRET cfg) ""); [done|].
  rewrite Hev. destruct w as [dbw sess]. cbn [Root.db Root.sessions].
  assert (Hsame : ∀ r : result doc,
             (r, {| Root.db := dbw; Root.sessions := sess |}).1 = r
             ∧ Root.sessions (r, {| Root.db := dbw; Root.sessions := sess |}).2
               = sess
             ∧ match dbw,
                     Root.db (r, {| Root.db := dbw; Root.sessions := sess |}).2
               with
               | Some d, Some d' =>
                   ∀ name, Database.collection d' name
                           = Database.collection d name
               | None, None => True
               | _, _ => False
               end)
    by (intros r; cbn [fst snd Root.db Root.sessions]; by destruct dbw).
  destruct (String.eqb_spec (ev_type ev) "checkout.session.completed")
    as [Hty|Hty];
    [|by destruct (Hsame (Ok Root.received)) as (? & ? & ?)].
  destruct (default ∅ (ev_metadata ev) !! "flame_id") as [fid|];
    [|by destruct (Hsame (Ok Root.received)) as (? & ? & ?)].
  destruct dbw as [d|];
    [|by destruct (Hsame (Ok Root.received)) as (? & ? & ?)].
  destruct (String.eqb_spec fid "") as [Hfid|Hfid];
    [by destruct (Hsame (Ok Root.received)) as (? & ? & ?)|].
  destruct (Root.ObjectId fid) as [oid|];
    [|by destruct (Hsame (Ok Root.received)) as (? & ? & ?)].
  cbn [fst snd mbind option_bind Root.db Root.sessions Root.set_db].
  repeat split. intros [?|[?|[?|[?|Hnone]]]] name; [done..|].
  destruct (decide (name = "flame")) as [->|Hne];
    [|by rewrite collection_insert_ne].
  rewrite collection_insert.
  match goal with
  | |- context [Mongo.update_one ?q ?u ?c] =>
      destruct (update_one_shape q u c)
        as [[_ ->]|(? & ? & ? & _ & _ & _ & ? & _)]; [done|congruence]
  end.
Qed.

Lemma root_webhook_acknowledges_witness :
  let w := Sample.root_world [] in
  let out := Root.stripe_webhook Sample.ext Sample.cfg
               "65f0a1b2c3d4e5f601234567" (Some "whsec_test") 7 w in
  out.1 = Ok Root.received
  ∧ Root.sessions out.2 = Root.sessions w
  ∧ (ev_type Sample.completed ≠ "checkout.session.completed"
     ∨ Root.db w = None
     ∨ match default ∅ (ev_metadata Sample.completed) !! "flame_id" with
       | Some flame_id =>
           flame_id = "" ∨ Root.ObjectId flame_id = None
           ∨ root_flame w flame_id = None
       | None => True
       end →
     match Root.db w, Root.db out.2 with
     | Some d, Some d' =>
         ∀ name, Database.collection d' name = Database.collection d name
     | None, None => True
     | _, _ => False
     end).
Proof.
  apply (root_webhook_acknowledges Sample.ext Sample.cfg
           "65f0a1b2c3d4e5f601234567" (Some "whsec_test") 7 Sample.completed
           (Sample.root_world [])); [discriminate | reflexivity].
Defined.

(** What a completed checkout writes in src/main.py: exactly one document
    of the flame collection changes, the one whose [_id] the event names; it
    becomes "paid" and takes the time of the delivery, and keeps every other
    field, its tier included.  No other collection changes. *)
Theorem root_webhook_effect (ext : externals) (cfg : Root.config)
    (payload : string) (sig_header : option string) (now : Z) (ev : event)
    (flame_id : string) (flame : doc) (d : store) (w : Root.world) :
  Root.STRIPE_WEBHOOK_SECRET cfg ≠ "" →
  construct_event ext payload sig_header (Root.STRIPE_WEBHOOK_SECRET cfg)
  = inr ev →
  ev_type ev = "checkout.session.completed" →
  default ∅ (ev_metadata ev) !! "flame_id" = Some flame_id →
  flame_id ≠ "" →
  Root.db w = Some d →
  root_flame w flame_id = Some flame →
  let out := Root.stripe_webhook ext cfg payload sig_header now w in
  ∃ d' pre post flame',
    Root.db out.2 = Some d'
    ∧ Database.collection d "flame" = (pre ++ flame :: post)%list
    ∧ Database.collection d' "flame" = (pre ++ flame' :: post)%list
    ∧ root_flame out.2 flame_id = Some flame'
    ∧ flame' !! "payment_status" = Some (VStr "paid")
    ∧ flame' !! "updated_at" = Some (VTime now)
    ∧ (∀ k, k ≠ "payment_status" → k ≠ "updated_at" →
            flame' !! k = flame !! k)
    ∧ ∀ name, name ≠ "flame" →
              Database.collection d' name = Database.collection d name.
Proof.
  intros Hsec Hev Hty Hfid Hne Hdb Hflame out. subst out.
  unfold Root.stripe_webhook, root_flame in *.
  destruct (String.eqb_spec (Root.STRIPE_WEBHOOK_SECRET cfg) ""); [done|].
  rewrite Hev, Hty, Hfid, Hdb, String.eqb_refl in *.
  destruct (String.eqb_spec flame_id ""); [done|].
  cbn [mbind option_bind] in Hflame.
  destruct (Root.ObjectId flame_id) as [oid|]; [|done].
  cbn [mbind option_bind fst snd Root.db Root.set_db] in *.
  match goal with
  | |- context [Mongo.update_one ?q ?u ?c] =>
      destruct (update_one_shape q u c)
        as [[Hn _]|(pre & d0 & post & Hc & Hpre & Hm & Hf & Hu)];
        [congruence|]; set (upd := u) in *
  end.
  assert (d0 = flame) by congruence. subst d0.
  eexists _, pre, post, (upd ∪ flame). split; [reflexivity|].
  rewrite collection_insert, Hu. split; [done|]. split; [done|]. split.
  { apply find_one_app_hit; [done|]. by rewrite matches_union_other. }
  subst upd. repeat split.
  - by rewrite lookup_union; destruct (flame !! "payment_status").
  - by rewrite lookup_union; destruct (flame !! "updated_at").
  - intros k ? ?. rewrite lookup_union. simpl.
    rewrite !lookup_insert_ne by done. rewrite lookup_empty.
    by destruct (flame !! k).
  - intros name ?. by rewrite collection_insert_ne.
Qed.

Lemma root_webhook_effect_witness :
  let w := Sample.root_world [Sample.premium_flame] in
  let out := Root.stripe_webhook Sample.ext Sample.cfg
               "65f0a1b2c3d4e5f601234567" (Some "whsec_test") 7 w in
  ∃ d' pre post flame',
    Root.db out.2 = Some d'
    ∧ Database.collection {["flame" := [Sample.premium_flame]]} "flame"
      = (pre ++ Sample.premium_flame :: post)%list
    ∧ Database.collection d' "flame" = (pre ++ flame' :: post)%list
    ∧ root_flame out.2 "65f0a1b2c3d4e5f601234567" = Some flame'
    ∧ flame' !! "payment_status" = Some (VStr "paid")
    ∧ flame' !! "updated_at" = Some (VTime 7)
    ∧ (∀ k, k ≠ "payment_status" → k ≠ "updated_at" →
            flame' !! k = Sample.premium_flame !! k)
    ∧ ∀ name, name ≠ "flame" →
              Database.collection d' name
              = Database.collection {["flame" := [Sample.premium_flame]]} name.
Proof.
  apply (root_webhook_effect Sample.ext Sample.cfg "65f0a1b2c3d4e5f601234567"
           (Some "whsec_test") 7 Sample.completed "65f0a1b2c3d4e5f601234567"
           Sample.premium_flame {["flame" := [Sample.premium_flame]]}
           (Sample.root_world [Sample.premium_flame]));
    [discriminate | reflexivity | reflexivity | reflexivity | discriminate
    | reflexivity | reflexivity].
Defined.

Lemma str_field_Some (lo hi : nat) (v : value) :
  is_Some (Root.str_field lo hi v)
  ↔ ∃ m, v = VStr m ∧ (lo ≤ String.length m ≤ hi)%nat.
Proof.
  unfold Root.str_field. split.
  - destruct v as [| | |m| | | | |]; try by intros [? ?].
    destruct (Nat.leb_spec lo (String.length m));
      destruct (Nat.leb_spec (String.length m) hi); simpl;
      try by intros [? ?].
    intros _. exists m. split; [done|lia].
  - intros (m & -> & Hlo & Hhi).
    destruct (Nat.leb_spec lo (String.length m)); [|lia].
    destruct (Nat.leb_spec (String.length m) hi); [|lia]. by eexists.
Qed.

(** GET /flames/{slug} of src/main.py: a 200 carries a stored flame with
    that slug, its "_id" removed and its text put under "id", every other
    field as stored; 500 means that no database is configured, 404 that no
    flame has the slug; the handler fails only on a document without "_id". *)
Theorem root_get_flame_result (slug : string) (w : Root.world) :
  match Root.get_flame slug w with
  | Ok doc =>
      ∃ d stored i,
        Root.db w = Some d
        ∧ stored ∈ Database.collection d "flame"
        ∧ stored !! "slug" = Some (VStr slug)
        ∧ stored !! "_id" = Some i
        ∧ doc !! "id" = Some (VStr (py_str i))
        ∧ doc !! "_id" = None
        ∧ ∀ k, k ≠ "id" → k ≠ "_id" → doc !! k = stored !! k
  | HTTPException code _ =>
      (code = 500%Z ∧ Root.db w = None)
      ∨ (code = 404%Z
         ∧ ∃ d, Root.db w = Some d
                ∧ ∀ x, x ∈ Database.collection d "flame" →
                       x !! "slug" ≠ Some (VStr slug))
  | Unhandled _ =>
      ∃ d stored,
        Root.db w = Some d
        ∧ stored ∈ Database.collection d "flame"
        ∧ stored !! "_id" = None
  end.
Proof.
  unfold Root.get_flame. destruct (Root.db w) as [d|]; [|by left].
  destruct (Mongo.find_one _ _) as [stored|] eqn:Hf.
  - apply find_one_Some in Hf as [Hin Hm].
    rewrite matches_cons in Hm. apply andb_true_iff in Hm as [Hm _].
    destruct (stored !! "slug") as [v|] eqn:Hslug; [|done].
    rewrite (scalar_eqb_str _ _ Hm) in Hslug.
    unfold Root.public_id. destruct (stored !! "_id") as [i|] eqn:Hid.
    + exists d, stored, i. repeat split; try done.
      * by rewrite lookup_insert_eq.
      * by rewrite lookup_insert_ne, lookup_delete_eq.
      * intros k ? ?. by rewrite lookup_insert_ne, lookup_delete_ne.
    + by exists d, stored.
  - right. split; [done|]. exists d. split; [done|]. intros x Hx Hslug.
    rewrite find_one_None in Hf. specialize (Hf x Hx).
    rewrite matches_cons, Hslug in Hf. unfold Mongo.scalar_eqb in Hf.
    by rewrite String.eqb_refl in Hf.
Qed.

(** POST /flames/{flame_id}/reply of src/main.py accepts a reply exactly
    when the body has no key "flame_id", its message is a string of 3 to
    2000 characters and a database is configured: the flames play no part.
    A body with the key "flame_id" is not a validation error but the
    TypeError of a keyword passed twice; and a reply that is not accepted
    changes nothing. *)
Theorem root_reply_flame_acceptance (flame_id : string) (payload : doc)
    (now : Z) (oid : string) (w : Root.world) :
  let out := Root.reply_flame flame_id payload now oid w in
  (is_ok out.1 = true
   ↔ payload !! "flame_id" = None
     ∧ (∃ m, payload !! "message" = Some (VStr m)
             ∧ (3 ≤ String.length m ≤ 2000)%nat)
     ∧ is_Some (Root.db w))
  ∧ (is_ok out.1 = false → out.2 = w)
  ∧ (is_Some (payload !! "flame_id") →
     out.1 = Unhandled "TypeError: got multiple values for keyword argument 'flame_id'").
Proof.
  cbv zeta. unfold Root.reply_flame, Root.FlameReply_call.
  destruct (payload !! "flame_id") as [v|].
  - cbn [fst snd is_ok]. split; [|by split]. split; [done|]. by intros [? _].
  - pose proof (str_field_Some 3 2000) as Hsf.
    destruct (payload !! "message") as [v|]; cbn [required mbind option_bind].
    + specialize (Hsf v).
      destruct (Root.str_field 3 2000 v) as [m|].
      * assert (Hm : ∃ m0, v = VStr m0 ∧ (3 ≤ String.length m0 ≤ 2000)%nat)
          by (apply Hsf; eauto).
        destruct Hm as (m0 & -> & Hlen).
        destruct (Root.db w) as [d|].
        -- destruct_root_create. cbn [fst snd is_ok].
           split; [|split; [done|by intros [? ?]]].
           split; [|done]. intros _. split; [done|]. split; [|by eexists].
           by exists m0.
        -- cbn [fst snd is_ok]. split; [|split; [done|by intros [? ?]]].
           split; [done|]. by intros (_ & _ & [? ?]).
      * cbn [fst snd is_ok]. split; [|split; [done|by intros [? ?]]].
        split; [done|]. intros (_ & (m & [= ->] & Hlen) & _).
        assert (is_Some (None : option string)) as [? ?]; [|done].
        apply Hsf. by exists m.
    + cbn [fst snd is_ok]. split; [|split; [done|by intros [? ?]]].
      split; [done|]. by intros (_ & (m & ? & _) & _).
Qed.

(** GET /admin/flames of src/main.py answers 401 exactly when no admin key
    is configured or the header is absent or differs from the key. *)
Theorem root_admin_flames_access (cfg : Root.config)
    (x_admin_key : option string) (w : Root.world) :
  Root.admin_flames cfg x_admin_key w = HTTPException 401 (Msg "Unauthorized")
  ↔ Root.ADMIN_KEY cfg = "" ∨ x_admin_key ≠ Some (Root.ADMIN_KEY cfg).
Proof.
  unfold Root.admin_flames.
  destruct (String.eqb_spec (Root.ADMIN_KEY cfg) "") as [He|He];
    [by split; [left|]|].
  cbn [orb]. destruct x_admin_key as [k|]; cbn [negb].
  - destruct (String.eqb_spec k (Root.ADMIN_KEY cfg)) as [->|Hk]; cbn [negb].
    + split; [|by intros [?|?]].
      destruct (Root.db w); [|done]. by destruct (mapM _ _).
    + split; [|done]. intros _. right. by intros [= ?].
  - split; [|done]. intros _. by right.
Qed.
